(** * newscard: the photocard generator of [src/App.tsx]

    A shallow embedding of the single React component [App]: its state
    (the six [useState] cells), its event handlers ([extractNewsData],
    [downloadCard], [handleFileChange] and the inline [onChange] /
    [onClick] / [onError] handlers) and the part of the JSX that decides
    what the card shows.

    The component runs on a JavaScript platform.  The two platform
    functions whose result decides a branch of the component,
    [JSON.parse] and [new URL(_).hostname], are parameters of the
    development (Section [Component]); [Reference] gives executable
    instances used to evaluate the component on concrete inputs. *)

From Stdlib Require Import ZArith QArith Qreduction Qcanon List String Ascii Bool Lia.
From Stdlib Require Import DecimalString DecimalN DecimalPos DecimalFacts.

Set Warnings "-register-all".
Import ListNotations.

Local Open Scope string_scope.
Local Open Scope Z_scope.

(* ================================================================== *)
(** * JavaScript values *)
(* ================================================================== *)

Module JS.

(** A JavaScript number: a binary64 value, given by the rational it is
    ([Finite q], in lowest terms), an infinity or [NaN].  The numbers
    the platform produces are rounded to binary64 ([binary64] below);
    [-0] is not kept apart from [0] (no operation of the component
    tells them apart). *)
Inductive number : Type :=
| NaN
| Infinity (negative : bool)
| Finite (q : Q).

Definition of_Z (z : Z) : number := Finite (z # 1).

(** The values the component handles: what [JSON.parse] returns, plus
    [undefined] (a property that is not there). *)
Inductive value : Type :=
| Undefined
| Null
| Bool (b : bool)
| Num (n : number)
| Str (s : string)
| Arr (items : list value)
| Obj (props : list (string * value)).

(** What a [throw] carries, as far as the component can tell. *)
Inductive exception : Type :=
| SyntaxError
| TypeError
| Rejection (reason : string)
| InvalidChild.

(** Completion of an expression that may throw. *)
Inductive result (A : Type) : Type :=
| Ok (a : A)
| Throw (e : exception).
Arguments Ok {A} a.
Arguments Throw {A} e.

Definition bind {A B} (r : result A) (k : A -> result B) : result B :=
  match r with
  | Ok a => k a
  | Throw e => Throw e
  end.

Notation "x <- r ;; k" := (bind r (fun x => k))
  (at level 61, r at next level, right associativity).

Definition is_zero (n : number) : bool :=
  match n with
  | Finite q => Qnum q =? 0
  | _ => false
  end.

(** [ToBoolean]: the falsy values are [undefined], [null], [false],
    [0], [NaN] and the empty string. *)
Definition ToBoolean (v : value) : bool :=
  match v with
  | Undefined | Null => false
  | Bool b => b
  | Num NaN => false
  | Num n => negb (is_zero n)
  | Str s => negb (String.eqb s "")
  | Arr _ | Obj _ => true
  end.

(** [a || b] with [b] evaluated only when [a] is falsy. *)
Definition or_else (a : value) (b : result value) : result value :=
  if ToBoolean a then Ok a else b.

(** [s || t] on strings ([response.text || '{}']). *)
Definition or_string (s : option string) (t : string) : string :=
  match s with
  | Some s' => if String.eqb s' "" then t else s'
  | None => t
  end.

Fixpoint lookup (k : string) (props : list (string * value)) : value :=
  match props with
  | [] => Undefined
  | (k', v) :: rest => if String.eqb k k' then v else lookup k rest
  end.

(** [o.k] for a property name [k] that no prototype defines (the four
    names the component reads are such): a [TypeError] on [null] and
    [undefined], the own property of an object, [undefined] elsewhere. *)
Definition get (o : value) (k : string) : result value :=
  match o with
  | Undefined | Null => Throw TypeError
  | Obj props => Ok (lookup k props)
  | _ => Ok Undefined
  end.

(** What React accepts as a child: strings and numbers are text,
    booleans, [null] and [undefined] show nothing, an array is the
    sequence of its items; a plain object is not a valid child (the
    render throws "Objects are not valid as a React child"). *)
Fixpoint renderable (v : value) : bool :=
  match v with
  | Obj _ => false
  | Arr items => forallb renderable items
  | _ => true
  end.

(* ------------------------------------------------------------------ *)
(** ** Numeric literals: [Number(string)] *)

Definition digit_of (c : ascii) : option Z :=
  let n := nat_of_ascii c in
  if ((48 <=? n) && (n <=? 57))%nat then Some (Z.of_nat (n - 48)) else None.

Definition hex_digit_of (c : ascii) : option Z :=
  let n := nat_of_ascii c in
  if ((48 <=? n) && (n <=? 57))%nat then Some (Z.of_nat (n - 48))
  else if ((97 <=? n) && (n <=? 102))%nat then Some (Z.of_nat (n - 87))
  else if ((65 <=? n) && (n <=? 70))%nat then Some (Z.of_nat (n - 55))
  else None.

(** The longest prefix of digits in base [b]: its value on top of
    [acc], how many digits it has, and what follows it. *)
Fixpoint digits (dig : ascii -> option Z) (b : Z) (acc : Z) (cnt : nat)
  (s : string) : Z * nat * string :=
  match s with
  | String c r =>
      match dig c with
      | Some d => if d <? b then digits dig b (b * acc + d) (S cnt) r
                  else (acc, cnt, s)
      | None => (acc, cnt, s)
      end
  | EmptyString => (acc, cnt, s)
  end.

Definition decimal_digits := digits digit_of 10.

(** [m * 10^e] in lowest terms. *)
Definition scale10 (m e : Z) : Q :=
  match e with
  | Z0 => m # 1
  | Zpos p => (m * Z.pos (10 ^ p)) # 1
  | Zneg p => Qred (m # (10 ^ p))
  end.

(** [ExponentPart?] followed by the end of the string. *)
Definition exponent_to_end (s : string) : option Z :=
  match s with
  | EmptyString => Some 0
  | String c r =>
      if (Ascii.eqb c "e" || Ascii.eqb c "E")%bool then
        let '(neg, r') :=
          match r with
          | String "-" t => (true, t)
          | String "+" t => (false, t)
          | _ => (false, r)
          end in
        match decimal_digits 0 0%nat r' with
        | (e, S _, EmptyString) => Some (if neg then - e else e)
        | _ => None
        end
      else None
  end.

(** [StrUnsignedDecimalLiteral] (without [Infinity]), to the end of the
    string: digits with an optional fraction, or a fraction alone, and
    an optional exponent. *)
Definition unsigned_decimal (s : string) : option Q :=
  let '(i, ni, r) := decimal_digits 0 0%nat s in
  let '(m, nf, r') :=
    match r with
    | String "." t => decimal_digits i 0%nat t
    | _ => (i, 0%nat, r)
    end in
  let dotted := match r with String "." _ => true | _ => false end in
  if ((ni =? 0) && (nf =? 0))%nat then None
  else if ((ni =? 0)%nat && negb dotted)%bool then None
  else match exponent_to_end r' with
       | Some e => Some (scale10 m (e - Z.of_nat nf))
       | None => None
       end.

Definition negate (n : number) : number :=
  match n with
  | NaN => NaN
  | Infinity s => Infinity (negb s)
  | Finite q => Finite (Qopp q)
  end.

Definition unsigned_literal (s : string) : option number :=
  if String.eqb s "Infinity" then Some (Infinity false)
  else option_map Finite (unsigned_decimal s).

(** [StrDecimalLiteral]: an optional sign and an unsigned literal. *)
Definition decimal_literal (s : string) : option number :=
  match s with
  | String "-" t => option_map negate (unsigned_literal t)
  | String "+" t => unsigned_literal t
  | _ => unsigned_literal s
  end.

(** [NonDecimalIntegerLiteral]: [0x], [0o] or [0b] and digits of that
    base, unsigned. *)
Definition non_decimal_literal (s : string) : option number :=
  match s with
  | String "0" (String c t) =>
      let base :=
        if (Ascii.eqb c "x" || Ascii.eqb c "X")%bool then Some 16
        else if (Ascii.eqb c "o" || Ascii.eqb c "O")%bool then Some 8
        else if (Ascii.eqb c "b" || Ascii.eqb c "B")%bool then Some 2
        else None in
      match base with
      | Some b =>
          match digits hex_digit_of b 0 0%nat t with
          | (v, S _, EmptyString) => Some (of_Z v)
          | _ => None
          end
      | None => None
      end
  | _ => None
  end.

(** White space and line terminators of the ASCII range; the others
    ([U+00A0], [U+FEFF], ...) cannot occur in the value of a numeric
    input and are left as ordinary characters. *)
Definition is_space (c : ascii) : bool :=
  let n := nat_of_ascii c in
  (((9 <=? n) && (n <=? 13)) || (n =? 32))%nat.

Fixpoint trim_start (s : string) : string :=
  match s with
  | String c r => if is_space c then trim_start r else s
  | EmptyString => s
  end.

(** Drops trailing white space: [None] when the string is all space. *)
Fixpoint trim_end_aux (s : string) : option string :=
  match s with
  | EmptyString => None
  | String c r =>
      match trim_end_aux r with
      | Some r' => Some (String c r')
      | None => if is_space c then None else Some (String c EmptyString)
      end
  end.

Definition trim (s : string) : string :=
  match trim_end_aux (trim_start s) with
  | Some t => t
  | None => ""
  end.

(** The mathematical value of a string numeric literal, before it is
    rounded: [NaN] when the string is no literal. *)
Definition mathematical_value (s : string) : number :=
  let t := trim s in
  if String.eqb t "" then of_Z 0
  else match non_decimal_literal t with
       | Some n => n
       | None =>
           match decimal_literal t with
           | Some n => n
           | None => NaN
           end
       end.

(** ** Rounding to binary64 *)

(** [n / d] rounded to the nearest integer, ties to even ([0 <= n],
    [0 < d]). *)
Definition round_half_even (n d : Z) : Z :=
  let q := n / d in
  match 2 * (n mod d) ?= d with
  | Lt => q
  | Gt => q + 1
  | Eq => if Z.even q then q else q + 1
  end.

(** The exponent [e] with [2^e <= a / d < 2^(e+1)] ([0 < a], [0 < d]). *)
Definition binade (a d : Z) : Z :=
  let e0 := Z.log2 a - Z.log2 d in
  if (if 0 <=? e0 then d * 2 ^ e0 <=? a else d <=? a * 2 ^ (- e0))
  then e0 else e0 - 1.

(** [m * 2^u] in lowest terms. *)
Definition scale2 (m u : Z) : Q :=
  if 0 <=? u then (m * 2 ^ u) # 1
  else Qred (m # Z.to_pos (2 ^ (- u))).

(** The binary64 value nearest to [q], ties to even: 53 significant
    bits, the unit in the last place never below [2^-1074], and
    [Infinity] from [2^1024] on. *)
Definition binary64 (q : Q) : number :=
  let a := Z.abs (Qnum q) in
  let d := Zpos (Qden q) in
  let negative := Qnum q <? 0 in
  if a =? 0 then Finite (0 # 1)
  else
    let u := Z.max (binade a d - 52) (- 1074) in
    let m := if 0 <=? u then round_half_even a (d * 2 ^ u)
             else round_half_even (a * 2 ^ (- u)) d in
    if (0 <=? u) && (2 ^ 1024 <=? m * 2 ^ u) then Infinity negative
    else Finite (if negative then Qopp (scale2 m u) else scale2 m u).

Definition to_binary64 (n : number) : number :=
  match n with
  | Finite q => binary64 q
  | _ => n
  end.

(** [Number(s)] for a string [s] ([StringToNumber]): the binary64 value
    of its mathematical value. *)
Definition Number (s : string) : number :=
  to_binary64 (mathematical_value s).

(** A number is a positive integer. *)
Definition is_positive_integer (n : number) : bool :=
  match n with
  | Finite q => (0 <? Qnum q) && (Zpos (Qden (Qred q)) =? 1)
  | _ => false
  end.

(** [`${n}`] for an integer [n]. *)
Definition string_of_Z (z : Z) : string :=
  NilZero.string_of_int (Z.to_int z).

End JS.

Import JS.

(* ================================================================== *)
(** * Reference instances of the platform functions *)
(* ================================================================== *)

(** Executable readings of [JSON.parse] (ECMA-404 texts, strings as
    UTF-8) and of [new URL(_).hostname] (the URL Standard's scheme and
    authority states, for hosts that are ASCII domain names: no IDNA,
    no percent-decoding, no IPv4 normalisation and no IPv6 literals).  The theorems on the
    component hold for any platform functions; these instances serve to
    run it on concrete inputs. *)
Module Reference.

Definition quote : ascii := "034"%char.
Definition backslash : ascii := "092"%char.

Fixpoint strip_prefix (p s : string) : option string :=
  match p, s with
  | EmptyString, _ => Some s
  | String a p', String b s' => if Ascii.eqb a b then strip_prefix p' s' else None
  | String _ _, EmptyString => None
  end.

(** ** JSON *)

Definition is_json_space (c : ascii) : bool :=
  let n := nat_of_ascii c in
  ((n =? 32) || (n =? 9) || (n =? 10) || (n =? 13))%nat.

Fixpoint skip_ws (s : string) : string :=
  match s with
  | String c r => if is_json_space c then skip_ws r else s
  | EmptyString => s
  end.

Definition byte (z : Z) : ascii := ascii_of_nat (Z.to_nat z).

(** UTF-8 of a code point (three bytes for a lone surrogate). *)
Definition utf8 (cp : Z) : string :=
  if cp <? 128 then String (byte cp) ""
  else if cp <? 2048 then
    String (byte (192 + cp / 64)) (String (byte (128 + cp mod 64)) "")
  else if cp <? 65536 then
    String (byte (224 + cp / 4096))
      (String (byte (128 + (cp / 64) mod 64))
         (String (byte (128 + cp mod 64)) ""))
  else
    String (byte (240 + cp / 262144))
      (String (byte (128 + (cp / 4096) mod 64))
         (String (byte (128 + (cp / 64) mod 64))
            (String (byte (128 + cp mod 64)) ""))).

(** Four hexadecimal digits. *)
Definition hex4 (s : string) : option (Z * string) :=
  match s with
  | String a (String b (String c (String d r))) =>
      match hex_digit_of a, hex_digit_of b, hex_digit_of c, hex_digit_of d with
      | Some x, Some y, Some z, Some w => Some (((x * 16 + y) * 16 + z) * 16 + w, r)
      | _, _, _, _ => None
      end
  | _ => None
  end.

(** A [\uXXXX] escape, after the [u]: a high surrogate followed by an
    escaped low surrogate is one code point. *)
Definition unicode_escape (s : string) : option (string * string) :=
  match hex4 s with
  | None => None
  | Some (hi, r) =>
      let alone := Some (utf8 hi, r) in
      if (55296 <=? hi) && (hi <? 56320) then
        match r with
        | String "\" (String "u" r') =>
            match hex4 r' with
            | Some (lo, r'') =>
                if (56320 <=? lo) && (lo <? 57344)
                then Some (utf8 (65536 + (hi - 55296) * 1024 + (lo - 56320)), r'')
                else alone
            | None => alone
            end
        | _ => alone
        end
      else alone
  end.

(** The characters of a string after its opening quote, and what
    follows the closing quote.  The recursion is on [fuel], as an
    escape consumes several characters. *)
Fixpoint string_body (fuel : nat) (s : string) : option (string * string) :=
  match fuel with
  | O => None
  | S f =>
      match s with
      | EmptyString => None
      | String c r =>
          if Ascii.eqb c quote then Some ("", r)
          else if Ascii.eqb c backslash then
            match r with
            | String e r' =>
                let simple (x : string) :=
                  match string_body f r' with
                  | Some (t, r'') => Some (x ++ t, r'')
                  | None => None
                  end in
                if Ascii.eqb e quote then simple (String quote "")
                else if Ascii.eqb e backslash then simple (String backslash "")
                else if Ascii.eqb e "/" then simple "/"
                else if Ascii.eqb e "b" then simple (String "008"%char "")
                else if Ascii.eqb e "f" then simple (String "012"%char "")
                else if Ascii.eqb e "n" then simple (String "010"%char "")
                else if Ascii.eqb e "r" then simple (String "013"%char "")
                else if Ascii.eqb e "t" then simple (String "009"%char "")
                else if Ascii.eqb e "u" then
                  match unicode_escape r' with
                  | Some (x, r'') =>
                      match string_body f r'' with
                      | Some (t, r3) => Some (x ++ t, r3)
                      | None => None
                      end
                  | None => None
                  end
                else None
            | EmptyString => None
            end
          else if (nat_of_ascii c <? 32)%nat then None
          else match string_body f r with
               | Some (t, r') => Some (String c t, r')
               | None => None
               end
      end
  end.

(** A JSON number at the head of [s]. *)
Definition json_number (s : string) : option (number * string) :=
  let '(neg, s1) :=
    match s with
    | String "-" t => (true, t)
    | _ => (false, s)
    end in
  let int_part :=
    match s1 with
    | String "0" t => Some (0, t)
    | _ => match decimal_digits 0 0%nat s1 with
           | (i, S _, r) => Some (i, r)
           | _ => None
           end
    end in
  match int_part with
  | None => None
  | Some (i, r) =>
      let frac :=
        match r with
        | String "." t =>
            match decimal_digits i 0%nat t with
            | (m, S k, r') => Some (m, S k, r')
            | _ => None
            end
        | _ => Some (i, 0%nat, r)
        end in
      match frac with
      | None => None
      | Some (m, nf, r') =>
          let exp :=
            match r' with
            | String c t =>
                if (Ascii.eqb c "e" || Ascii.eqb c "E")%bool then
                  let '(eneg, t') :=
                    match t with
                    | String "-" x => (true, x)
                    | String "+" x => (false, x)
                    | _ => (false, t)
                    end in
                  match decimal_digits 0 0%nat t' with
                  | (e, S _, r'') => Some (if eneg then - e else e, r'')
                  | _ => None
                  end
                else Some (0, r')
            | EmptyString => Some (0, r')
            end in
          match exp with
          | None => None
          | Some (e, r'') =>
              let q := scale10 m (e - Z.of_nat nf) in
              Some (binary64 (if neg then Qopp q else q), r'')
          end
      end
  end.

(** [o[k] = v] while an object is built: a repeated name keeps its
    place and takes the later value. *)
Fixpoint define (k : string) (v : value) (props : list (string * value))
  : list (string * value) :=
  match props with
  | [] => [(k, v)]
  | (k', v') :: rest =>
      if String.eqb k k' then (k, v) :: rest else (k', v') :: define k v rest
  end.

Fixpoint json_value (fuel : nat) (s : string) : option (value * string) :=
  match fuel with
  | O => None
  | S f =>
      match skip_ws s with
      | EmptyString => None
      | String c r as s' =>
          if Ascii.eqb c "{" then
            match skip_ws r with
            | String "}" r' => Some (Obj [], r')
            | r1 => json_members f r1 []
            end
          else if Ascii.eqb c "[" then
            match skip_ws r with
            | String "]" r' => Some (Arr [], r')
            | r1 => json_elements f r1 []
            end
          else if Ascii.eqb c quote then
            match string_body (S (String.length r)) r with
            | Some (t, r') => Some (Str t, r')
            | None => None
            end
          else
            match strip_prefix "true" s', strip_prefix "false" s',
                  strip_prefix "null" s' with
            | Some r', _, _ => Some (Bool true, r')
            | _, Some r', _ => Some (Bool false, r')
            | _, _, Some r' => Some (Null, r')
            | _, _, _ =>
                match json_number s' with
                | Some (n, r') => Some (Num n, r')
                | None => None
                end
            end
      end
  end
with json_elements (fuel : nat) (s : string) (acc : list value)
  : option (value * string) :=
  match fuel with
  | O => None
  | S f =>
      match json_value f s with
      | Some (v, r) =>
          match skip_ws r with
          | String "," r' => json_elements f r' (acc ++ [v])%list
          | String "]" r' => Some (Arr (acc ++ [v])%list, r')
          | _ => None
          end
      | None => None
      end
  end
with json_members (fuel : nat) (s : string) (acc : list (string * value))
  : option (value * string) :=
  match fuel with
  | O => None
  | S f =>
      match skip_ws s with
      | String c r =>
          if Ascii.eqb c quote then
            match string_body (S (String.length r)) r with
            | Some (k, r1) =>
                match skip_ws r1 with
                | String ":" r2 =>
                    match json_value f r2 with
                    | Some (v, r3) =>
                        match skip_ws r3 with
                        | String "," r4 => json_members f r4 (define k v acc)
                        | String "}" r4 => Some (Obj (define k v acc), r4)
                        | _ => None
                        end
                    | None => None
                    end
                | _ => None
                end
            | None => None
            end
          else None
      | EmptyString => None
      end
  end.

(** [JSON.parse(s)]: one value and nothing but white space after it. *)
Definition JSON_parse (s : string) : result value :=
  match json_value (S (2 * String.length s)) s with
  | Some (v, r) =>
      match skip_ws r with
      | EmptyString => Ok v
      | _ => Throw SyntaxError
      end
  | None => Throw SyntaxError
  end.

(** ** URL *)

Definition is_alpha (c : ascii) : bool :=
  let n := nat_of_ascii c in
  (((65 <=? n) && (n <=? 90)) || ((97 <=? n) && (n <=? 122)))%nat.

Definition is_scheme_char (c : ascii) : bool :=
  let n := nat_of_ascii c in
  (is_alpha c || ((48 <=? n) && (n <=? 57)) ||
   (n =? 43) || (n =? 45) || (n =? 46))%nat.

Definition lower (c : ascii) : ascii :=
  let n := nat_of_ascii c in
  if ((65 <=? n) && (n <=? 90))%nat then ascii_of_nat (n + 32) else c.

Fixpoint lowercase (s : string) : string :=
  match s with
  | String c r => String (lower c) (lowercase r)
  | EmptyString => EmptyString
  end.

(** Leading and trailing C0 controls and spaces are dropped, and tabs
    and newlines anywhere. *)
Definition is_c0_or_space (c : ascii) : bool := (nat_of_ascii c <=? 32)%nat.

Fixpoint drop_leading (s : string) : string :=
  match s with
  | String c r => if is_c0_or_space c then drop_leading r else s
  | EmptyString => s
  end.

Fixpoint drop_trailing (s : string) : option string :=
  match s with
  | EmptyString => None
  | String c r =>
      match drop_trailing r with
      | Some r' => Some (String c r')
      | None => if is_c0_or_space c then None else Some (String c EmptyString)
      end
  end.

Fixpoint drop_tab_newline (s : string) : string :=
  match s with
  | String c r =>
      let n := nat_of_ascii c in
      if ((n =? 9) || (n =? 10) || (n =? 13))%nat then drop_tab_newline r
      else String c (drop_tab_newline r)
  | EmptyString => EmptyString
  end.

(** The scheme, lower-cased (its characters so far in [acc]), and what
    follows the colon. *)
Fixpoint scheme_rest (acc : string) (s : string) : option (string * string) :=
  match s with
  | String c r =>
      if Ascii.eqb c ":" then Some (acc, r)
      else if is_scheme_char c then scheme_rest (acc ++ String (lower c) "") r
      else None
  | EmptyString => None
  end.

Definition scheme_of (s : string) : option (string * string) :=
  match s with
  | String c r => if is_alpha c then scheme_rest (String (lower c) "") r else None
  | EmptyString => None
  end.

Definition is_special (scheme : string) : bool :=
  existsb (String.eqb scheme) ["http"; "https"; "ws"; "wss"; "ftp"].

Definition is_slash (special : bool) (c : ascii) : bool :=
  (Ascii.eqb c "/" || (special && Ascii.eqb c backslash))%bool.

Fixpoint skip_slashes (s : string) : string :=
  match s with
  | String c r => if is_slash true c then skip_slashes r else s
  | EmptyString => s
  end.

(** The authority: up to the first slash, [?] or [#]. *)
Fixpoint authority (special : bool) (s : string) : string :=
  match s with
  | String c r =>
      if (is_slash special c || Ascii.eqb c "?" || Ascii.eqb c "#")%bool then ""
      else String c (authority special r)
  | EmptyString => ""
  end.

(** What follows the last [@], the whole string when there is none. *)
Fixpoint after_credentials (s : string) : string :=
  match s with
  | String c r =>
      let rest := after_credentials r in
      if Ascii.eqb c "@" then
        (if existsb (Ascii.eqb "@") (list_ascii_of_string r) then rest else r)
      else if existsb (Ascii.eqb "@") (list_ascii_of_string r) then rest
      else s
  | EmptyString => s
  end.

(** Host and port of [host[:port]]. *)
Fixpoint host_port (s : string) : string * option string :=
  match s with
  | String c r =>
      if Ascii.eqb c ":" then ("", Some r)
      else let '(h, p) := host_port r in (String c h, p)
  | EmptyString => ("", None)
  end.

Definition valid_port (p : option string) : bool :=
  match p with
  | None => true
  | Some s =>
      match decimal_digits 0 0%nat s with
      | (n, _, EmptyString) => n <=? 65535
      | _ => false
      end
  end.

(** The forbidden domain code points of the ASCII range. *)
Definition forbidden_in_domain (c : ascii) : bool :=
  let n := nat_of_ascii c in
  ((n <=? 32) || (n =? 127) ||
   existsb (Ascii.eqb c)
     (list_ascii_of_string "#/:<>?@[\]^|%"))%nat.

Definition URL_hostname (input : string) : result string :=
  let s :=
    match drop_trailing (drop_leading input) with
    | Some t => drop_tab_newline t
    | None => ""
    end in
  match scheme_of s with
  | None => Throw TypeError
  | Some (scheme, rest) =>
      if is_special scheme then
        let '(h, p) :=
          host_port (after_credentials (authority true (skip_slashes rest))) in
        if String.eqb h "" then Throw TypeError
        else if negb (valid_port p) then Throw TypeError
        else if existsb forbidden_in_domain (list_ascii_of_string h)
        then Throw TypeError
        else Ok (lowercase h)
      else
        match strip_prefix "//" rest with
        | Some r =>
            let '(h, p) := host_port (after_credentials (authority false r)) in
            if negb (valid_port p) then Throw TypeError else Ok h
        | None => Ok ""
        end
  end.

End Reference.

(* ================================================================== *)
(** * The component *)
(* ================================================================== *)

Module App.

(** ** Types *)

Record NewsData : Type := mkNewsData {
  title : value;
  imageUrl : value;
  logoUrl : value;
  date : value;
  source : value
}.

Record Gradient : Type := mkGradient {
  id : string;
  name : string;
  class : string
}.

Definition GRADIENTS : list Gradient :=
  [ mkGradient "blue-purple" "Blue Purple"
      "bg-gradient-to-br from-blue-600 to-purple-700";
    mkGradient "red-dark" "Red Dark"
      "bg-gradient-to-br from-red-600 to-red-900";
    mkGradient "green-teal" "Green Teal"
      "bg-gradient-to-br from-emerald-600 to-teal-800";
    mkGradient "orange-red" "Orange Red"
      "bg-gradient-to-br from-orange-500 to-red-600";
    mkGradient "dark-gray" "Dark Gray"
      "bg-gradient-to-br from-zinc-800 to-black" ].

(** The six [useState] cells of [App]. *)
Record State : Type := mkState {
  url : string;
  loading : bool;
  error : option string;
  newsData : NewsData;
  selectedGradient : Gradient;
  fontSize : number
}.

(** ** String constants of the source *)

Definition default_title : string :=
  "আপনার খবরের শিরোনাম এখানে দেখা যাবে".
Definition title_not_found : string :=
  "শিরোনাম পাওয়া যায়নি".
Definition placeholder_image : string :=
  "https://picsum.photos/seed/news/800/450".
Definition error_image : string :=
  "https://picsum.photos/seed/error/800/450".
Definition default_source : string := "news.example.com".
Definition extraction_error : string :=
  "খবরটি লোড করতে সমস্যা হয়েছে। অনুগ্রহ করে সঠিক লিংক দিন অথবা ম্যানুয়ালি তথ্য পরিবর্তন করুন।".
Definition download_error_label : string := "Error downloading card:".

Definition newline : string := String "010"%char EmptyString.

(** The [contents] of the request, a template over the URL. *)
Definition prompt (u : string) : string :=
  "Extract news information from this URL: " ++ u ++ ". " ++ newline ++
  "        Provide the title in Bengali if possible, a valid image URL from the article, the publication date, and the domain name.".

(** [useState] initial values; [today] is
    [new Date().toLocaleDateString('bn-BD', ...)] at mount. *)
Definition initial (today : string) : State :=
  {| url := "";
     loading := false;
     error := None;
     newsData := {| title := Str default_title;
                    imageUrl := Str placeholder_image;
                    logoUrl := Str "";
                    date := Str today;
                    source := Str default_source |};
     selectedGradient := hd (mkGradient "" "" "") GRADIENTS;
     fontSize := of_Z 24 |}.

(** ** State updates and effects *)

(** A call of one of the six setters.  [setNewsData] takes the updater
    form [prev => ...]; the plain form [setNewsData(obj)] is the
    updater that ignores [prev] ([put]). *)
Inductive update : Type :=
| setUrl (v : string)
| setLoading (b : bool)
| setError (e : option string)
| setNewsData (f : NewsData -> result NewsData)
| setSelectedGradient (g : Gradient)
| setFontSize (n : number).

Definition put (nd : NewsData) : NewsData -> result NewsData :=
  fun _ => Ok nd.

(** What a handler does besides setting state. *)
Inductive effect : Type :=
| generateContent (contents : string)
| console_error (label : option string) (err : exception)
| toPng
| download (filename href : string).

Definition apply (st : State) (u : update) : result State :=
  match u with
  | setUrl v =>
      Ok (mkState v (loading st) (error st) (newsData st)
            (selectedGradient st) (fontSize st))
  | setLoading b =>
      Ok (mkState (url st) b (error st) (newsData st)
            (selectedGradient st) (fontSize st))
  | setError e =>
      Ok (mkState (url st) (loading st) e (newsData st)
            (selectedGradient st) (fontSize st))
  | setNewsData f =>
      nd <- f (newsData st) ;;
      Ok (mkState (url st) (loading st) (error st) nd
            (selectedGradient st) (fontSize st))
  | setSelectedGradient g =>
      Ok (mkState (url st) (loading st) (error st) (newsData st)
            g (fontSize st))
  | setFontSize n =>
      Ok (mkState (url st) (loading st) (error st) (newsData st)
            (selectedGradient st) n)
  end.

(** The queued updates are applied in order when React renders; an
    updater that throws makes the render throw. *)
Fixpoint apply_all (st : State) (us : list update) : result State :=
  match us with
  | [] => Ok st
  | u :: rest => st' <- apply st u ;; apply_all st' rest
  end.

(** The component on screen, or gone: [App] has no error boundary, so
    an error thrown while rendering unmounts the whole tree. *)
Inductive screen : Type :=
| Mounted (st : State)
| Unmounted (e : exception).

(** The render after the handler of a control.  What a control stores
    in [title], [date] or [source] is a string, so the card on screen
    stays one React can render ([control_keeps_renderable] below) and
    this render throws only if an updater does. *)
Definition rerender (st : State) (us : list update) : screen :=
  match apply_all st us with
  | Ok st' => Mounted st'
  | Throw e => Unmounted e
  end.

(** [title], [date] and [source] are rendered as children (the [h2]
    and the two footer items): the render throws when one of them is
    not a valid child. *)
Definition renders (nd : NewsData) : bool :=
  renderable (title nd) && renderable (date nd) && renderable (source nd).

Definition stores_card (u : update) : bool :=
  match u with
  | setNewsData _ => true
  | _ => false
  end.

(** The render after a call has settled.  If the call stored a card,
    its [title], [date] and [source] come from the response and the
    render throws when one of them is not a valid child; if it stored
    none, the card is the one on screen. *)
Definition rerender_settled (st : State) (us : list update) : screen :=
  match apply_all st us with
  | Ok st' =>
      if existsb stores_card us && negb (renders (newsData st'))
      then Unmounted InvalidChild
      else Mounted st'
  | Throw e => Unmounted e
  end.

(** ** Handlers *)

Inductive image_field : Type := field_imageUrl | field_logoUrl.

Definition with_field (f : image_field) (v : value) (prev : NewsData)
  : NewsData :=
  match f with
  | field_imageUrl =>
      mkNewsData (title prev) v (logoUrl prev) (date prev) (source prev)
  | field_logoUrl =>
      mkNewsData (title prev) (imageUrl prev) v (date prev) (source prev)
  end.

(** [handleFileChange]: [file] is [e.target.files?.[0]], given by what
    [reader.result] holds at [onloadend] (a data URL, or [null] when
    the read failed). *)
Definition handleFileChange (file : option value) (f : image_field)
  : list update :=
  match file with
  | Some result => [setNewsData (fun prev => Ok (with_field f result prev))]
  | None => []
  end.

(** The response of the provider, as far as the component reads it. *)
Record response : Type := mkResponse { text : option string }.

Section Component.

(** [JSON.parse], and [new URL(_).hostname]. *)
Variable JSON_parse : string -> result value.
Variable URL_hostname : string -> result string.

(** The updater passed to [setNewsData] on the success path; [today]
    is [new Date().toLocaleDateString('bn-BD', ...)] when it runs. *)
Definition merge (data : value) (u today : string) (prev : NewsData)
  : result NewsData :=
  t <- (v <- get data "title" ;; or_else v (Ok (Str title_not_found))) ;;
  i <- (v <- get data "imageUrl" ;; or_else v (Ok (Str placeholder_image))) ;;
  d <- (v <- get data "date" ;; or_else v (Ok (Str today))) ;;
  s <- (v <- get data "source" ;;
        or_else v (h <- URL_hostname u ;; Ok (Str h))) ;;
  Ok (mkNewsData t i (logoUrl prev) d s).

(** [extractNewsData] up to its [await]: [None] when it returns at the
    guard, else the updates queued and the request issued. *)
Definition extractNewsData_call (u : string)
  : option (list update * list effect) :=
  if negb (ToBoolean (Str u)) then None
  else Some ([setLoading true; setError None], [generateContent (prompt u)]).

(** [extractNewsData] from the point where the awaited request settles:
    the rest of the [try] block, the [catch] and the [finally]. *)
Definition extractNewsData_resume (u today : string) (o : result response)
  : list update * list effect :=
  let tried :=
    r <- o ;;
    data <- JSON_parse (or_string (text r) "{}") ;;
    Ok [setNewsData (merge data u today)] in
  match tried with
  | Ok us => ((us ++ [setLoading false])%list, [])
  | Throw err =>
      ([setError (Some extraction_error); setLoading false],
       [console_error None err])
  end.

(** One whole call with nothing else happening in between: the state
    is rendered once the call is suspended and again once it is over.
    The closure keeps the [url] of the render in which it was made. *)
Definition extractNewsData (st : State) (o : result response)
  (today : string) : screen * list effect :=
  match extractNewsData_call (url st) with
  | None => (Mounted st, [])
  | Some (us, fx) =>
      match apply_all st us with
      | Throw e => (Unmounted e, fx)
      | Ok st1 =>
          let '(us', fx') := extractNewsData_resume (url st) today o in
          (rerender_settled st1 us', (fx ++ fx')%list)
      end
  end.

(** [downloadCard]: [card] is [cardRef.current], [png] how [toPng]
    settles and [now] is [Date.now()].  It sets no state. *)
Definition downloadCard (card : option unit) (png : result string) (now : Z)
  : list update * list effect :=
  match card with
  | None => ([], [])
  | Some _ =>
      match png with
      | Ok dataUrl =>
          ([], [toPng;
                download ("news-card-" ++ string_of_Z now ++ ".png") dataUrl])
      | Throw err =>
          ([], [toPng; console_error (Some download_error_label) err])
      end
  end.

(** ** What is rendered *)

(** What a handler attached to an element does: changes of the element
    itself, and setter calls. *)
Inductive dom_action : Type :=
| set_src (v : string).

Record handler : Type := mkHandler {
  dom_actions : list dom_action;
  updates : list update
}.

Record Img : Type := mkImg {
  src : value;
  onError : option handler
}.

Inductive LogoBadge : Type :=
| logo_img (i : Img)
| logo_glyph.

Record Button : Type := mkButton {
  key : string;
  onClick : handler;
  highlighted : bool
}.

(** The parts of the JSX that depend on the state. *)
Record View : Type := mkView {
  generate_disabled : bool;
  error_box : option string;
  fontSize_input : number;
  gradient_buttons : list Button;
  card_class : string;
  logo : LogoBadge;
  hero : Img;
  heading : value;
  heading_px : number;
  footer_date : value;
  footer_source : value
}.

Definition gradient_button (selected grad : Gradient) : Button :=
  {| key := id grad;
     onClick := mkHandler [] [setSelectedGradient grad];
     highlighted := String.eqb (id selected) (id grad) |}.

Definition hero_onError : handler :=
  mkHandler [set_src error_image] [].

Definition render (st : State) : View :=
  {| generate_disabled := loading st || negb (ToBoolean (Str (url st)));
     error_box :=
       match error st with
       | Some e => if ToBoolean (Str e) then Some e else None
       | None => None
       end;
     fontSize_input := fontSize st;
     gradient_buttons := map (gradient_button (selectedGradient st)) GRADIENTS;
     card_class :=
       "w-[500px] h-[500px] " ++ class (selectedGradient st) ++
       " relative overflow-hidden shadow-2xl flex flex-col p-6";
     logo :=
       if ToBoolean (logoUrl (newsData st))
       then logo_img (mkImg (logoUrl (newsData st)) None)
       else logo_glyph;
     hero := mkImg (imageUrl (newsData st)) (Some hero_onError);
     heading := title (newsData st);
     heading_px := fontSize st;
     footer_date := date (newsData st);
     footer_source := source (newsData st) |}.

(** The element after its [error] event was dispatched, and the setter
    calls its handler made. *)
Definition act (i : Img) (a : dom_action) : Img :=
  match a with
  | set_src v => mkImg (Str v) (onError i)
  end.

Definition dispatch_error (i : Img) : Img * list update :=
  match onError i with
  | Some h => (fold_left act (dom_actions h) i, updates h)
  | None => (i, [])
  end.

(** ** The component as a transition system *)

Inductive image : Type := hero_image | logo_image.

Inductive event : Type :=
| ChangeUrl (v : string)
| ClickGenerate
| Settle (k : nat) (o : result response) (today : string)
| ChooseFile (f : image_field) (file : option value)
| ChangeTitle (v : string)
| ChangeFontSize (v : string)
| ChangeDate (v : string)
| ChangeSource (v : string)
| ClickGradient (i : nat)
| ClickDownload (png : result string) (now : Z)
| ImageError (which : image).

(** The screen, the [url] captured by each call of [extractNewsData]
    that is still awaiting its response, and the effects so far. *)
Record World : Type := mkWorld {
  ui : screen;
  inflight : list string;
  log : list effect
}.

Fixpoint remove_nth {A} (k : nat) (l : list A) : list A :=
  match l, k with
  | [], _ => []
  | _ :: t, O => t
  | x :: t, S k' => x :: remove_nth k' t
  end.

(** The setter calls and effects of the handler an event runs, in the
    state [st] of the last render. *)
Definition handle (st : State) (e : event) : list update * list effect :=
  let nd := newsData st in
  match e with
  | ChangeUrl v => ([setUrl v], [])
  | ChooseFile f file => (handleFileChange file f, [])
  | ChangeTitle v =>
      ([setNewsData (put (mkNewsData (Str v) (imageUrl nd) (logoUrl nd)
                            (date nd) (source nd)))], [])
  | ChangeFontSize v => ([setFontSize (Number v)], [])
  | ChangeDate v =>
      ([setNewsData (put (mkNewsData (title nd) (imageUrl nd) (logoUrl nd)
                            (Str v) (source nd)))], [])
  | ChangeSource v =>
      ([setNewsData (put (mkNewsData (title nd) (imageUrl nd) (logoUrl nd)
                            (date nd) (Str v)))], [])
  | ClickGradient i =>
      match nth_error (gradient_buttons (render st)) i with
      | Some b => (updates (onClick b), [])
      | None => ([], [])
      end
  | ClickDownload png now => downloadCard (Some tt) png now
  | ImageError hero_image => (snd (dispatch_error (hero (render st))), [])
  | ImageError logo_image =>
      match logo (render st) with
      | logo_img i => (snd (dispatch_error i), [])
      | logo_glyph => ([], [])
      end
  | ClickGenerate | Settle _ _ _ => ([], [])
  end.

Definition step (w : World) (e : event) : World :=
  match e with
  | Settle k o today =>
      match nth_error (inflight w) k with
      | None => w
      | Some u =>
          let '(us, fx) := extractNewsData_resume u today o in
          {| ui := match ui w with
                   | Mounted st => rerender_settled st us
                   | Unmounted x => Unmounted x
                   end;
             inflight := remove_nth k (inflight w);
             log := (log w ++ fx)%list |}
      end
  | _ =>
      match ui w with
      | Unmounted _ => w
      | Mounted st =>
          match e with
          | ClickGenerate =>
              if generate_disabled (render st) then w
              else match extractNewsData_call (url st) with
                   | None => w
                   | Some (us, fx) =>
                       {| ui := rerender st us;
                          inflight := (inflight w ++ [url st])%list;
                          log := (log w ++ fx)%list |}
                   end
          | _ =>
              let '(us, fx) := handle st e in
              {| ui := rerender st us;
                 inflight := inflight w;
                 log := (log w ++ fx)%list |}
          end
      end
  end.

Definition run (w : World) (es : list event) : World :=
  fold_left step es w.

Definition start (today : string) : World :=
  {| ui := Mounted (initial today); inflight := []; log := [] |}.


(** ** Reading the specification *)


(** The exception that sends a call to its [catch] block: the request
    was rejected, or the text of the response does not parse. *)
Definition failure (o : result response) : option exception :=
  match o with
  | Throw e => Some e
  | Ok r =>
      match JSON_parse (or_string (text r) "{}") with
      | Throw e => Some e
      | Ok _ => None
      end
  end.

(** The cells of the state that an extraction does not own. *)
Definition frame (st st' : State) : Prop :=
  logoUrl (newsData st') = logoUrl (newsData st) /\
  selectedGradient st' = selectedGradient st /\
  fontSize st' = fontSize st /\
  url st' = url st.

Definition gradient_ids : list string :=
  ["blue-purple"; "red-dark"; "green-teal"; "orange-red"; "dark-gray"].

(** The state rendered while the request is awaited. *)
Definition suspended (st : State) : State :=
  mkState (url st) true None (newsData st) (selectedGradient st) (fontSize st).

(** The selected gradient is an entry of [GRADIENTS]; the updates
    that keep it so. *)
Definition preset (st : State) : Prop := In (selectedGradient st) GRADIENTS.

Definition keeps_preset (u : update) : Prop :=
  match u with
  | setSelectedGradient g => In g GRADIENTS
  | _ => True
  end.

Definition world_preset (w : World) : Prop :=
  match ui w with
  | Mounted st => preset st
  | Unmounted _ => True
  end.

(** ** Concrete inputs *)

(** A JSON string literal. *)
Definition quoted (s : string) : string :=
  String Reference.quote (s ++ String Reference.quote "").

(** The response of the specification's scenario: no [date]. *)
Definition scenario_text : string :=
  "{" ++ quoted "title" ++ ":" ++ quoted "টেস্ট শিরোনাম" ++ "," ++
  quoted "imageUrl" ++ ":" ++ quoted "https://x/y.jpg" ++ "," ++
  quoted "source" ++ ":" ++ quoted "x.com" ++ "}".

Definition scenario_props : list (string * value) :=
  [("title", Str "টেস্ট শিরোনাম"); ("imageUrl", Str "https://x/y.jpg");
   ("source", Str "x.com")].

(** A response whose [source] is the empty string. *)
Definition sourceless_text : string :=
  "{" ++ quoted "title" ++ ":" ++ quoted "টেস্ট শিরোনাম" ++ "," ++
  quoted "imageUrl" ++ ":" ++ quoted "https://x/y.jpg" ++ "," ++
  quoted "source" ++ ":" ++ quoted "" ++ "}".

Definition sourceless_props : list (string * value) :=
  [("title", Str "টেস্ট শিরোনাম"); ("imageUrl", Str "https://x/y.jpg");
   ("source", Str "")].

(** A response whose [title] is an object. *)
Definition object_title_text : string :=
  "{" ++ quoted "title" ++ ":{" ++ quoted "text" ++ ":" ++
  quoted "টেস্ট শিরোনাম" ++ "}," ++
  quoted "imageUrl" ++ ":" ++ quoted "https://x/y.jpg" ++ "," ++
  quoted "source" ++ ":" ++ quoted "x.com" ++ "}".

Definition object_title_props : list (string * value) :=
  [("title", Obj [("text", Str "টেস্ট শিরোনাম")]);
   ("imageUrl", Str "https://x/y.jpg"); ("source", Str "x.com")].


(** The initial state with the URL input filled in. *)
Definition typed (u : string) : State :=
  let i := initial "১ জানুয়ারি ২০২৫" in
  mkState u false None (newsData i) (selectedGradient i) (fontSize i).

Definition article : string := "https://example.com/news-article".
Definition schemeless : string := "example.com/news-article".

(** A logo read from a file that is not an image. *)
Definition text_file : string := "data:text/plain;base64,aGVsbG8=".

(** ** Decimal numerals *)

(** The value of a numeral read digit by digit, as [digits] does. *)
Fixpoint uint_value (acc : Z) (d : Decimal.uint) : Z :=
  match d with
  | Decimal.Nil => acc
  | Decimal.D0 d => uint_value (10 * acc + 0) d
  | Decimal.D1 d => uint_value (10 * acc + 1) d
  | Decimal.D2 d => uint_value (10 * acc + 2) d
  | Decimal.D3 d => uint_value (10 * acc + 3) d
  | Decimal.D4 d => uint_value (10 * acc + 4) d
  | Decimal.D5 d => uint_value (10 * acc + 5) d
  | Decimal.D6 d => uint_value (10 * acc + 6) d
  | Decimal.D7 d => uint_value (10 * acc + 7) d
  | Decimal.D8 d => uint_value (10 * acc + 8) d
  | Decimal.D9 d => uint_value (10 * acc + 9) d
  end.

(** ** Reading the code: what every run keeps *)

(** A predicate on states, as a predicate on worlds: it holds of the
    state on screen, if there is one. *)
Definition on_screen (P : State -> Prop) (w : World) : Prop :=
  match ui w with
  | Mounted st => P st
  | Unmounted _ => True
  end.

(** [loading] says whether a call is awaiting its response, and there
    is never more than one. *)
Definition one_flight (w : World) : Prop :=
  match ui w with
  | Mounted st => List.length (inflight w) = if loading st then 1%nat else 0%nat
  | Unmounted _ => (List.length (inflight w) <= 1)%nat
  end.

(** A request is for a non-empty URL. *)
Definition issued_for_url (e : effect) : Prop :=
  match e with
  | generateContent c => exists u, u <> "" /\ c = prompt u
  | _ => True
  end.

Definition requests_ok (w : World) : Prop :=
  Forall issued_for_url (log w) /\ Forall (fun u => u <> "") (inflight w).

(** The only message [error] ever holds. *)
Definition error_ok (st : State) : Prop :=
  error st = None \/ error st = Some extraction_error.

Definition sets_known_error (u : update) : Prop :=
  match u with
  | setError e => e = None \/ e = Some extraction_error
  | _ => True
  end.

Definition leaves_loading (u : update) : Prop :=
  match u with
  | setLoading _ => False
  | _ => True
  end.

(** An update whose updater cannot throw. *)
Definition total_update (u : update) : Prop :=
  match u with
  | setNewsData f => forall nd, exists nd', f nd = Ok nd'
  | _ => True
  end.

Definition is_Settle (e : event) : bool :=
  match e with
  | Settle _ _ _ => true
  | _ => false
  end.


(** The buttons of the theme picker that are drawn as selected. *)
Definition highlighted_keys (v : View) : list string :=
  map key (filter highlighted (gradient_buttons v)).

(* ================================================================== *)
(** * Properties *)
(* ================================================================== *)

(** ** Values *)

Lemma ToBoolean_Str (s : string) : ToBoolean (Str s) = true <-> s <> "".
Proof.
  simpl. destruct (String.eqb_spec s ""); simpl; split; congruence.
Qed.


Lemma or_else_default (v d : value) :
  or_else v (Ok d) = Ok (if ToBoolean v then v else d).
Proof. unfold or_else. destruct (ToBoolean v); reflexivity. Qed.


(** ** The updater of the success path *)

Lemma merge_Obj (props : list (string * value)) (u today : string)
  (prev : NewsData) :
  merge (Obj props) u today prev =
  (s <- or_else (lookup "source" props) (h <- URL_hostname u ;; Ok (Str h)) ;;
   Ok (mkNewsData
         (if ToBoolean (lookup "title" props) then lookup "title" props
          else Str title_not_found)
         (if ToBoolean (lookup "imageUrl" props) then lookup "imageUrl" props
          else Str placeholder_image)
         (logoUrl prev)
         (if ToBoolean (lookup "date" props) then lookup "date" props
          else Str today)
         s)).
Proof.
  unfold merge. cbn [get bind]. rewrite !or_else_default. reflexivity.
Qed.

Lemma merge_null (u today : string) (prev : NewsData) :
  merge Null u today prev = Throw TypeError.
Proof. reflexivity. Qed.

(** ** Unfolding one call *)

Lemma call_nonempty (u : string) :
  u <> "" ->
  extractNewsData_call u =
  Some ([setLoading true; setError None], [generateContent (prompt u)]).
Proof.
  intros Hu. unfold extractNewsData_call.
  apply ToBoolean_Str in Hu. rewrite Hu. reflexivity.
Qed.

Lemma call_empty : extractNewsData_call "" = None.
Proof. reflexivity. Qed.

Lemma extractNewsData_nonempty (st : State) (o : result response)
  (today : string) :
  url st <> "" ->
  extractNewsData st o today =
  (rerender_settled (suspended st)
     (fst (extractNewsData_resume (url st) today o)),
   generateContent (prompt (url st))
     :: snd (extractNewsData_resume (url st) today o)).
Proof.
  intros Hu. unfold extractNewsData. rewrite (call_nonempty _ Hu).
  cbn [apply_all apply bind].
  destruct (extractNewsData_resume (url st) today o) as [us fx].
  reflexivity.
Qed.

Lemma resume_failure (u today : string) (o : result response)
  (e : exception) :
  failure o = Some e ->
  extractNewsData_resume u today o =
  ([setError (Some extraction_error); setLoading false],
   [console_error None e]).
Proof.
  unfold failure, extractNewsData_resume. intros H.
  destruct o as [r | e']; cbn [bind].
  - destruct (JSON_parse (or_string (text r) "{}")) as [d | e']; cbn [bind].
    + discriminate.
    + congruence.
  - congruence.
Qed.

Lemma resume_parsed (u today : string) (r : response) (data : value) :
  JSON_parse (or_string (text r) "{}") = Ok data ->
  extractNewsData_resume u today (Ok r) =
  ([setNewsData (merge data u today); setLoading false], []).
Proof.
  unfold extractNewsData_resume. cbn [bind]. intros ->. reflexivity.
Qed.

Lemma rerender_merge (st : State) (f : NewsData -> result NewsData) :
  rerender_settled st [setNewsData f; setLoading false] =
  match f (newsData st) with
  | Ok nd =>
      if renders nd
      then Mounted (mkState (url st) false (error st) nd
                      (selectedGradient st) (fontSize st))
      else Unmounted InvalidChild
  | Throw e => Unmounted e
  end.
Proof.
  unfold rerender_settled. cbn [apply_all apply bind].
  destruct (f (newsData st)) as [nd | e]; cbn [bind]; [| reflexivity].
  cbn [existsb stores_card orb andb newsData].
  destruct (renders nd); reflexivity.
Qed.

Lemma rerender_settled_mounted (st st' : State) (us : list update) :
  rerender_settled st us = Mounted st' -> apply_all st us = Ok st'.
Proof.
  unfold rerender_settled.
  destruct (apply_all st us) as [st1 | e]; [| discriminate].
  destruct (existsb stores_card us && negb (renders (newsData st1)));
    [discriminate |].
  intros H. injection H as <-. reflexivity.
Qed.

Lemma rerender_caught (st : State) (e : option string) :
  rerender_settled st [setError e; setLoading false] =
  Mounted (mkState (url st) false e (newsData st)
             (selectedGradient st) (fontSize st)).
Proof. reflexivity. Qed.

(** A falsy value is a valid child, so what [||] keeps of a field is
    renderable exactly when the field is. *)
Lemma renderable_pick (v : value) (d : string) :
  renderable (if ToBoolean v then v else Str d) = renderable v.
Proof.
  destruct v as [| | b | n | s | items | props]; cbn [ToBoolean renderable];
    try reflexivity.
  - destruct b; reflexivity.
  - destruct n; try reflexivity. destruct (negb (is_zero (Finite q)));
      reflexivity.
  - destruct (negb (String.eqb s "")); reflexivity.
Qed.

(** A parsed response whose updater returns the card [nd]: the call
    ends with [nd] on screen, or with the render thrown out by a child
    of [nd] that is not valid. *)
Lemma extract_stored (st : State) (r : response) (today : string)
  (data : value) (nd : NewsData) :
  url st <> "" ->
  JSON_parse (or_string (text r) "{}") = Ok data ->
  merge data (url st) today (newsData st) = Ok nd ->
  extractNewsData st (Ok r) today =
  (if renders nd
   then Mounted (mkState (url st) false None nd
                   (selectedGradient st) (fontSize st))
   else Unmounted InvalidChild,
   [generateContent (prompt (url st))]).
Proof.
  intros Hu Hp Hm.
  rewrite (extractNewsData_nonempty _ _ _ Hu), (resume_parsed _ _ _ _ Hp).
  cbn [fst snd]. rewrite rerender_merge.
  cbn [suspended newsData url error selectedGradient fontSize].
  rewrite Hm. reflexivity.
Qed.

(** A parsed object response, on an input for which the updater
    completes and what it stores can be rendered: the state that
    results. *)
Lemma extract_parsed (st : State) (r : response) (today : string)
  (props : list (string * value)) (s : value) :
  url st <> "" ->
  JSON_parse (or_string (text r) "{}") = Ok (Obj props) ->
  or_else (lookup "source" props)
    (h <- URL_hostname (url st) ;; Ok (Str h)) = Ok s ->
  renderable (lookup "title" props) = true ->
  renderable (lookup "date" props) = true ->
  renderable s = true ->
  extractNewsData st (Ok r) today =
  (Mounted
     (mkState (url st) false None
        (mkNewsData
           (if ToBoolean (lookup "title" props) then lookup "title" props
            else Str title_not_found)
           (if ToBoolean (lookup "imageUrl" props)
            then lookup "imageUrl" props else Str placeholder_image)
           (logoUrl (newsData st))
           (if ToBoolean (lookup "date" props) then lookup "date" props
            else Str today)
           s)
        (selectedGradient st) (fontSize st)),
   [generateContent (prompt (url st))]).
Proof.
  intros Hu Hp Hs Ht Hd Hrs.
  erewrite extract_stored; [| exact Hu | exact Hp |].
  2: { rewrite merge_Obj, Hs. reflexivity. }
  unfold renders. cbn [title date source].
  rewrite !renderable_pick, Ht, Hd, Hrs. reflexivity.
Qed.



(** ** Extraction: the success path *)


Lemma merge_keeps_logoUrl (data : value) (u today : string)
  (prev nd : NewsData) :
  merge data u today prev = Ok nd -> logoUrl nd = logoUrl prev.
Proof.
  unfold merge. intros H.
  repeat match type of H with
         | bind ?r _ = Ok _ => destruct r; cbn [bind] in H; [| discriminate]
         end.
  injection H as <-. reflexivity.
Qed.

(** Whatever the outcome of a call, if the component is still mounted
    the cells outside the four extracted fields are as before. *)
Lemma extract_mounted_frame (st st' : State) (o : result response)
  (today : string) (fx : list effect) :
  extractNewsData st o today = (Mounted st', fx) -> frame st st'.
Proof.
  destruct (String.eqb_spec (url st) "") as [Hu | Hu].
  - unfold extractNewsData. rewrite Hu, call_empty.
    intros H. injection H as <- _. repeat split.
  - rewrite (extractNewsData_nonempty _ _ _ Hu).
    unfold extractNewsData_resume.
    destruct o as [r | e]; cbn [bind].
    + destruct (JSON_parse (or_string (text r) "{}")) as [data | e];
        cbn [bind fst snd app].
      * rewrite rerender_merge.
        destruct (merge data (url st) today (newsData (suspended st)))
          as [nd | e] eqn:E; [| discriminate].
        destruct (renders nd); [| discriminate].
        intros H. injection H as <- _.
        apply merge_keeps_logoUrl in E. repeat split. exact E.
      * intros H. injection H as <- _. repeat split.
    + cbn [fst snd]. intros H. injection H as <- _. repeat split.
Qed.


(** X20.  A response whose text is [undefined] or empty is parsed as
    [{}]; when the input URL has a hostname [h] the call is a success:
    the four fields get their fallbacks, the rest of the state is
    kept, no error message is set and nothing is logged. *)
Theorem empty_response_fallbacks (st : State) (r : response)
  (today h : string) :
  JSON_parse "{}" = Ok (Obj []) ->
  url st <> "" ->
  text r = None \/ text r = Some "" ->
  URL_hostname (url st) = Ok h ->
  extractNewsData st (Ok r) today =
  (Mounted
     (mkState (url st) false None
        (mkNewsData (Str title_not_found) (Str placeholder_image)
           (logoUrl (newsData st)) (Str today) (Str h))
        (selectedGradient st) (fontSize st)),
   [generateContent (prompt (url st))]).
Proof.
  intros Hparse Hu Ht Hh.
  assert (Hp : JSON_parse (or_string (text r) "{}") = Ok (Obj [])).
  { destruct Ht as [-> | ->]; exact Hparse. }
  rewrite (extract_parsed st r today [] (Str h) Hu Hp); try reflexivity.
  cbn [lookup]. unfold or_else. cbn [ToBoolean]. rewrite Hh. reflexivity.
Qed.


(** ** Extraction: the failure path and the guard *)

(** C2.  A call whose request is rejected or whose response does not
    parse leaves [newsData] (and the URL, gradient and font size) as
    before, sets the localized error message, which is not empty and
    is what the banner then shows, ends with [loading] false, and logs
    the exception. *)
Theorem extraction_failure_atomic (st : State) (o : result response)
  (today : string) (e : exception) :
  url st <> "" ->
  failure o = Some e ->
  extractNewsData st o today =
  (Mounted
     (mkState (url st) false (Some extraction_error) (newsData st)
        (selectedGradient st) (fontSize st)),
   [generateContent (prompt (url st)); console_error None e]) /\
  error_box
    (render
       (mkState (url st) false (Some extraction_error) (newsData st)
          (selectedGradient st) (fontSize st))) = Some extraction_error /\
  extraction_error <> "".
Proof.
  intros Hu Hf. split; [| split].
  - rewrite (extractNewsData_nonempty _ _ _ Hu), (resume_failure _ _ _ _ Hf).
    reflexivity.
  - reflexivity.
  - discriminate.
Qed.

(** C3.  With the empty string as URL, [extractNewsData] returns at its
    guard: no request is issued and the state, [loading] and [error]
    included, is what it was. *)
Theorem extract_empty_url_noop (st : State) (o : result response)
  (today : string) (fl : list string) (lg : list effect) :
  url st = "" ->
  extractNewsData_call (url st) = None /\
  extractNewsData st o today = (Mounted st, []) /\
  step (mkWorld (Mounted st) fl lg) ClickGenerate =
    mkWorld (Mounted st) fl lg.
Proof.
  intros Hu. unfold extractNewsData. cbn [step ui].
  rewrite Hu, call_empty.
  repeat split. destruct (generate_disabled (render st)); reflexivity.
Qed.

(** ** Export *)

(** C7.  When [toPng] fails, [downloadCard] logs the error to the
    console and does nothing else: it sets no state (so no error
    message), starts no download and calls [toPng] once. *)
Theorem download_failure_absorbed (st : State) (fl : list string)
  (lg : list effect) (err : exception) (now : Z) :
  downloadCard (Some tt) (Throw err) now =
    ([], [toPng; console_error (Some download_error_label) err]) /\
  step (mkWorld (Mounted st) fl lg) (ClickDownload (Throw err) now) =
    mkWorld (Mounted st) fl
      (lg ++ [toPng; console_error (Some download_error_label) err])%list.
Proof. split; reflexivity. Qed.


(** ** The selected gradient *)

Lemma apply_preset (st st' : State) (u : update) :
  preset st -> keeps_preset u -> apply st u = Ok st' -> preset st'.
Proof.
  unfold preset. intros Hst Hu H.
  destruct u; cbn [apply] in H;
    try (injection H as <-; cbn [selectedGradient]; assumption).
  destruct (f (newsData st)); cbn [bind] in H; [| discriminate].
  injection H as <-. assumption.
Qed.

Lemma apply_all_preset (us : list update) :
  forall st st',
    preset st -> Forall keeps_preset us -> apply_all st us = Ok st' ->
    preset st'.
Proof.
  induction us as [| u us IH]; intros st st' Hst Hus H; cbn [apply_all] in H.
  - injection H as <-. assumption.
  - inversion Hus as [| ? ? Hu Hrest]; subst.
    destruct (apply st u) as [st1 |] eqn:E; cbn [bind] in H; [| discriminate].
    apply (IH st1 st'); eauto using apply_preset.
Qed.

Lemma rerender_preset (st : State) (us : list update) :
  preset st -> Forall keeps_preset us ->
  match rerender st us with
  | Mounted st' => preset st'
  | Unmounted _ => True
  end.
Proof.
  intros Hst Hus. unfold rerender.
  destruct (apply_all st us) eqn:E; [| exact I].
  eapply apply_all_preset; eassumption.
Qed.

Lemma rerender_settled_preset (st : State) (us : list update) :
  preset st -> Forall keeps_preset us ->
  match rerender_settled st us with
  | Mounted st' => preset st'
  | Unmounted _ => True
  end.
Proof.
  intros Hst Hus.
  destruct (rerender_settled st us) as [st' | x] eqn:E; [| exact I].
  apply rerender_settled_mounted in E.
  eapply apply_all_preset; eassumption.
Qed.

Lemma gradient_button_preset (sel : Gradient) (i : nat) (b : Button) :
  nth_error (map (gradient_button sel) GRADIENTS) i = Some b ->
  Forall keeps_preset (updates (onClick b)).
Proof.
  intros H. apply nth_error_In, in_map_iff in H.
  destruct H as [g [<- Hg]].
  cbn [gradient_button onClick updates].
  apply Forall_cons; [exact Hg | apply Forall_nil].
Qed.

Lemma handle_preset (st : State) (e : event) :
  Forall keeps_preset (fst (handle st e)).
Proof.
  destruct e; cbn [handle fst]; try (repeat constructor; fail).
  - destruct file; cbn [handleFileChange]; repeat constructor.
  - cbn [render gradient_buttons].
    destruct (nth_error _ i) as [b |] eqn:E; cbn [fst].
    + eapply gradient_button_preset, E.
    + constructor.
  - destruct png; cbn [downloadCard fst]; constructor.
  - destruct which.
    + cbn. constructor.
    + cbn [render logo].
      destruct (ToBoolean (logoUrl (newsData st))); cbn; constructor.
Qed.

Lemma resume_preset (u today : string) (o : result response) :
  Forall keeps_preset (fst (extractNewsData_resume u today o)).
Proof.
  unfold extractNewsData_resume.
  destruct o as [r | e]; cbn [bind].
  - destruct (JSON_parse _); cbn [bind fst app]; repeat constructor.
  - cbn [fst]. repeat constructor.
Qed.

Lemma step_preset (w : World) (e : event) :
  world_preset w -> world_preset (step w e).
Proof.
  unfold world_preset. intros Hw.
  assert (Hgen : forall st, ui w = Mounted st ->
            match ui (let '(us, fx) := handle st e in
                      {| ui := rerender st us; inflight := inflight w;
                         log := (log w ++ fx)%list |}) with
            | Mounted st' => preset st'
            | Unmounted _ => True
            end).
  { intros st Hst. rewrite Hst in Hw.
    pose proof (handle_preset st e) as Hh.
    destruct (handle st e) as [us fx]. cbn [ui fst] in *.
    apply rerender_preset; assumption. }
  destruct e; cbn [step];
    try (destruct (ui w) as [st | x] eqn:Hui;
         [ specialize (Hgen st eq_refl); exact Hgen
         | rewrite Hui; exact I ]).
  - (* ClickGenerate *)
    destruct (ui w) as [st | x] eqn:Hui; [| rewrite Hui; exact I].
    destruct (generate_disabled (render st)); [rewrite Hui; exact Hw |].
    unfold extractNewsData_call.
    destruct (negb (ToBoolean (Str (url st)))); [rewrite Hui; exact Hw |].
    cbn [ui]. apply rerender_preset; [exact Hw | repeat constructor].
  - (* Settle *)
    destruct (nth_error (inflight w) k) as [u |]; [| exact Hw].
    pose proof (resume_preset u today o) as Hr.
    destruct (extractNewsData_resume u today o) as [us fx].
    cbn [ui fst] in *.
    destruct (ui w) as [st | x]; [| exact I].
    apply rerender_settled_preset; assumption.
Qed.

Lemma run_preset (es : list event) :
  forall w, world_preset w -> world_preset (run w es).
Proof.
  unfold run.
  induction es as [| e es IH]; intros w Hw; cbn [fold_left].
  - exact Hw.
  - apply IH, step_preset, Hw.
Qed.

Lemma start_preset (today : string) : world_preset (start today).
Proof. unfold world_preset, preset. cbn. left. reflexivity. Qed.

Lemma preset_id (g : Gradient) : In g GRADIENTS -> In (id g) gradient_ids.
Proof. intros H. apply (in_map id) in H. exact H. Qed.

(** C4.  From the initial state, after any sequence of events
    (extractions and their outcomes, edits, file choices, theme clicks,
    downloads, image errors), the selected gradient of the mounted
    component is one of the five entries of [GRADIENTS], and its
    identifier one of the five preset identifiers. *)
Theorem gradient_always_preset (today : string) (es : list event) :
  match ui (run (start today) es) with
  | Mounted st =>
      In (selectedGradient st) GRADIENTS /\
      In (id (selectedGradient st)) gradient_ids
  | Unmounted _ => True
  end.
Proof.
  pose proof (run_preset es _ (start_preset today)) as H.
  unfold world_preset in H.
  destruct (ui (run (start today) es)); [| exact I].
  split; [exact H | apply preset_id, H].
Qed.

(** ** Image load failures *)

(** C6 (as amended).  When the hero image fails to load, its [onError]
    handler replaces the element's [src] by the error placeholder; the
    logo is replaced by the built-in glyph exactly when [logoUrl] is
    falsy; and an image error, on either element, changes nothing of
    the state: [newsData] and all the rest stay as they were. *)
Theorem hero_placeholder_no_mutation (st : State) (fl : list string)
  (lg : list effect) (which : image) :
  src (fst (dispatch_error (hero (render st)))) = Str error_image /\
  (logo (render st) = logo_glyph <->
   ToBoolean (logoUrl (newsData st)) = false) /\
  step (mkWorld (Mounted st) fl lg) (ImageError which) =
    mkWorld (Mounted st) fl lg.
Proof.
  split; [reflexivity | split].
  - cbn [render logo].
    destruct (ToBoolean (logoUrl (newsData st))); split;
      congruence || discriminate.
  - destruct which; cbn [step ui handle].
    + cbn. rewrite List.app_nil_r. destruct st; reflexivity.
    + cbn [render logo].
      destruct (ToBoolean (logoUrl (newsData st))); cbn;
        rewrite List.app_nil_r; destruct st; reflexivity.
Qed.

(** ** Invariants of the transition system *)

Section Invariant.

Variable P : State -> Prop.
Variable Q : update -> Prop.

Hypothesis apply_keeps :
  forall st st' u, P st -> Q u -> apply st u = Ok st' -> P st'.
Hypothesis handle_keeps : forall st e, Forall Q (fst (handle st e)).
Hypothesis resume_keeps :
  forall u today o, Forall Q (fst (extractNewsData_resume u today o)).
Hypothesis call_keeps : Q (setLoading true) /\ Q (setError None).

Lemma apply_all_invariant (us : list update) :
  forall st st',
    P st -> Forall Q us -> apply_all st us = Ok st' -> P st'.
Proof.
  induction us as [| u us IH]; intros st st' Hst Hus H; cbn [apply_all] in H.
  - injection H as <-. exact Hst.
  - inversion Hus as [| ? ? Hu Hrest]; subst.
    destruct (apply st u) as [st1 |] eqn:E; cbn [bind] in H; [| discriminate].
    apply (IH st1 st'); eauto.
Qed.

Lemma rerender_invariant (st : State) (us : list update) :
  P st -> Forall Q us ->
  match rerender st us with
  | Mounted st' => P st'
  | Unmounted _ => True
  end.
Proof.
  intros Hst Hus. unfold rerender.
  destruct (apply_all st us) eqn:E; [| exact I].
  eapply apply_all_invariant; eassumption.
Qed.

Lemma rerender_settled_invariant (st : State) (us : list update) :
  P st -> Forall Q us ->
  match rerender_settled st us with
  | Mounted st' => P st'
  | Unmounted _ => True
  end.
Proof.
  intros Hst Hus.
  destruct (rerender_settled st us) as [st' | x] eqn:E; [| exact I].
  apply rerender_settled_mounted in E.
  eapply apply_all_invariant; eassumption.
Qed.

Lemma step_invariant (w : World) (e : event) :
  on_screen P w -> on_screen P (step w e).
Proof.
  unfold on_screen. intros Hw.
  destruct (is_Settle e) eqn:Hs.
  - destruct e; try discriminate. cbn [step].
    destruct (nth_error (inflight w) k) as [u |]; [| exact Hw].
    pose proof (resume_keeps u today o) as Hr.
    destruct (extractNewsData_resume u today o) as [us fx].
    cbn [ui fst] in *.
    destruct (ui w) as [st | x]; [| exact I].
    apply rerender_settled_invariant; assumption.
  - destruct (ui w) as [st | x] eqn:Hui.
    + assert (Hgen :
        match ui (let '(us, fx) := handle st e in
                  {| ui := rerender st us; inflight := inflight w;
                     log := (log w ++ fx)%list |}) with
        | Mounted st' => P st'
        | Unmounted _ => True
        end).
      { pose proof (handle_keeps st e) as Hh.
        destruct (handle st e) as [us fx]. cbn [ui fst] in *.
        apply rerender_invariant; assumption. }
      destruct e; try discriminate; cbn [step]; rewrite Hui;
        try exact Hgen.
      destruct (generate_disabled (render st)); [rewrite Hui; exact Hw |].
      unfold extractNewsData_call.
      destruct (negb (ToBoolean (Str (url st)))); [rewrite Hui; exact Hw |].
      cbn [ui]. apply rerender_invariant; [exact Hw |].
      destruct call_keeps. repeat constructor; assumption.
    + destruct e; try discriminate; cbn [step]; rewrite Hui;
        rewrite Hui; exact I.
Qed.

Lemma run_invariant (es : list event) :
  forall w, on_screen P w -> on_screen P (run w es).
Proof.
  unfold run.
  induction es as [| e es IH]; intros w Hw; cbn [fold_left].
  - exact Hw.
  - apply IH, step_invariant, Hw.
Qed.

End Invariant.

(** ** What the handlers of the controls call *)

Lemma handle_gradient (st : State) (i : nat) :
  handle st (ClickGradient i) =
  match nth_error GRADIENTS i with
  | Some g => ([setSelectedGradient g], [])
  | None => ([], [])
  end.
Proof.
  cbn [handle render gradient_buttons]. rewrite nth_error_map.
  destruct (nth_error GRADIENTS i); reflexivity.
Qed.

(** The updates of a control's handler: no [setLoading], no
    [setError], and no updater that can throw. *)
Lemma handle_updates (st : State) (e : event) :
  Forall (fun u => leaves_loading u /\ sets_known_error u /\ total_update u)
    (fst (handle st e)).
Proof.
  destruct e; try rewrite handle_gradient; cbn [handle fst];
    try (destruct file; cbn [handleFileChange]);
    try (destruct (nth_error GRADIENTS i); cbn [fst]);
    try (destruct png; cbn [downloadCard fst]);
    try (destruct which; cbn [render logo hero dispatch_error onError
           hero_onError updates snd];
         try destruct (ToBoolean (logoUrl (newsData st)));
         cbn [dispatch_error onError snd]);
    repeat first
      [ apply Forall_nil
      | apply Forall_cons
      | split
      | exact I
      | intros ?; eexists; reflexivity ].
Qed.

(** The effects of a control's handler: no request. *)
Lemma handle_effects (st : State) (e : event) :
  Forall issued_for_url (snd (handle st e)).
Proof.
  destruct e; try rewrite handle_gradient;
    try destruct which; try destruct png;
    try destruct (nth_error GRADIENTS i);
    cbn [handle snd downloadCard];
    try destruct (logo (render st)); cbn [snd];
    repeat first [ apply Forall_nil | apply Forall_cons | exact I ].
Qed.

Lemma apply_all_total (us : list update) :
  forall st, Forall total_update us -> exists st', apply_all st us = Ok st'.
Proof.
  induction us as [| u us IH]; intros st Hus; cbn [apply_all].
  - eexists. reflexivity.
  - inversion Hus as [| ? ? Hu Hrest]; subst.
    assert (H : exists st1, apply st u = Ok st1).
    { destruct u; cbn [apply]; try (eexists; reflexivity).
      cbn [total_update] in Hu. destruct (Hu (newsData st)) as [nd ->].
      cbn [bind]. eexists. reflexivity. }
    destruct H as [st1 ->]. cbn [bind]. apply IH, Hrest.
Qed.

Lemma apply_loading (st st' : State) (u : update) :
  leaves_loading u -> apply st u = Ok st' -> loading st' = loading st.
Proof.
  intros Hu H. destruct u; cbn [apply leaves_loading] in *;
    try contradiction;
    try (injection H as <-; reflexivity).
  destruct (f (newsData st)); cbn [bind] in H; [| discriminate].
  injection H as <-. reflexivity.
Qed.

Lemma apply_all_loading (us : list update) :
  forall st st',
    Forall leaves_loading us -> apply_all st us = Ok st' ->
    loading st' = loading st.
Proof.
  induction us as [| u us IH]; intros st st' Hus H; cbn [apply_all] in H.
  - injection H as <-. reflexivity.
  - inversion Hus as [| ? ? Hu Hrest]; subst.
    destruct (apply st u) as [st1 |] eqn:E; cbn [bind] in H; [| discriminate].
    rewrite (IH st1 st' Hrest H). eapply apply_loading; eassumption.
Qed.

Lemma Forall_weaken {A} (P Q : A -> Prop) (l : list A) :
  (forall x, P x -> Q x) -> Forall P l -> Forall Q l.
Proof. intros H HP. eapply Forall_impl; eassumption. Qed.

(** When a call settles and the component stays, [loading] is off. *)
Lemma resume_loading (u today : string) (o : result response)
  (st st' : State) :
  apply_all st (fst (extractNewsData_resume u today o)) = Ok st' ->
  loading st' = false.
Proof.
  unfold extractNewsData_resume.
  destruct o as [r | e]; cbn [bind].
  - destruct (JSON_parse (or_string (text r) "{}")) as [data | e];
      cbn [bind fst app apply_all apply].
    + destruct (merge data u today (newsData st)); cbn [bind];
        [| discriminate].
      intros H. injection H as <-. reflexivity.
    + intros H. injection H as <-. reflexivity.
  - cbn [fst apply_all apply bind]. intros H. injection H as <-. reflexivity.
Qed.

Lemma resume_known_error (u today : string) (o : result response) :
  Forall sets_known_error (fst (extractNewsData_resume u today o)).
Proof.
  unfold extractNewsData_resume.
  destruct o as [r | e]; cbn [bind].
  - destruct (JSON_parse _); cbn [bind fst app sets_known_error];
      repeat first [ apply Forall_nil | apply Forall_cons | exact I
                   | right; reflexivity ].
  - cbn [fst].
    repeat first [ apply Forall_nil | apply Forall_cons | exact I
                 | right; reflexivity ].
Qed.

Lemma resume_effects (u today : string) (o : result response) :
  Forall issued_for_url (snd (extractNewsData_resume u today o)).
Proof.
  unfold extractNewsData_resume.
  destruct o as [r | e]; cbn [bind].
  - destruct (JSON_parse _); cbn [bind snd]; repeat constructor.
  - cbn [snd]. repeat constructor.
Qed.

Lemma remove_nth_length_le {A} (k : nat) (l : list A) :
  (List.length (remove_nth k l) <= List.length l)%nat.
Proof.
  revert k. induction l as [| x l IH]; intros k; cbn [remove_nth].
  - destruct k; apply Nat.le_refl.
  - destruct k; cbn [List.length].
    + apply Nat.le_succ_diag_r.
    + apply le_n_S, IH.
Qed.

Lemma remove_nth_Forall {A} (P : A -> Prop) (k : nat) (l : list A) :
  Forall P l -> Forall P (remove_nth k l).
Proof.
  revert k. induction l as [| x l IH]; intros k H; cbn [remove_nth].
  - destruct k; constructor.
  - inversion H; subst. destruct k; [assumption |].
    constructor; [assumption | apply IH; assumption].
Qed.

Lemma step_one_flight (w : World) (e : event) :
  one_flight w -> one_flight (step w e).
Proof.
  unfold one_flight. intros Hw.
  destruct (is_Settle e) eqn:Hs.
  - destruct e; try discriminate. cbn [step].
    destruct (nth_error (inflight w) k) as [u |] eqn:Hk; [| exact Hw].
    pose proof (resume_loading u today o) as Hl.
    destruct (extractNewsData_resume u today o) as [us fx].
    cbn [ui inflight fst] in *.
    destruct (ui w) as [st | x].
    + assert (Hone : inflight w = [u] /\ k = 0%nat).
      { destruct (inflight w) as [| a [| b l]]; destruct (loading st);
          cbn [List.length] in Hw; try discriminate;
          destruct k; cbn in Hk; try discriminate;
          [ injection Hk as ->; auto | destruct k; discriminate ]. }
      destruct Hone as [-> ->]. cbn [remove_nth].
      destruct (rerender_settled st us) as [st' | x] eqn:E.
      * apply rerender_settled_mounted in E.
        rewrite (Hl st st' E). reflexivity.
      * cbn. apply Nat.le_0_l.
    + eapply Nat.le_trans; [apply remove_nth_length_le | exact Hw].
  - destruct (ui w) as [st | x] eqn:Hui.
    + assert (Hle : (List.length (inflight w) <= 1)%nat)
        by (rewrite Hw; destruct (loading st); auto).
      assert (Hgen :
        match ui (let '(us, fx) := handle st e in
                  {| ui := rerender st us; inflight := inflight w;
                     log := (log w ++ fx)%list |}) with
        | Mounted st' =>
            List.length (inflight w) = if loading st' then 1%nat else 0%nat
        | Unmounted _ => (List.length (inflight w) <= 1)%nat
        end).
      { pose proof (handle_updates st e) as Hh.
        destruct (handle st e) as [us fx]. cbn [ui fst] in *.
        unfold rerender. destruct (apply_all st us) as [st' |] eqn:E.
        - rewrite (apply_all_loading us st st'); [exact Hw | | exact E].
          eapply Forall_weaken; [| exact Hh]. intros x Hx. apply Hx.
        - exact Hle. }
      destruct e; try discriminate; cbn [step]; rewrite Hui;
        try (destruct (handle st _) as [us fx]; exact Hgen).
      cbn [render generate_disabled].
      destruct (loading st) eqn:Hload; cbn [orb].
      * rewrite Hui, Hload. exact Hw.
      * unfold extractNewsData_call.
        destruct (negb (ToBoolean (Str (url st)))); cbn [negb].
        -- rewrite Hui, Hload. exact Hw.
        -- cbn [ui inflight rerender apply_all apply bind loading].
           rewrite length_app, Hw. reflexivity.
    + destruct e; try discriminate; cbn [step]; rewrite Hui;
        rewrite Hui; exact Hw.
Qed.

Lemma step_requests_ok (w : World) (e : event) :
  requests_ok w -> requests_ok (step w e).
Proof.
  unfold requests_ok. intros [Hlog Hfl].
  destruct (is_Settle e) eqn:Hs.
  - destruct e; try discriminate. cbn [step].
    destruct (nth_error (inflight w) k) as [u |]; [| split; assumption].
    pose proof (resume_effects u today o) as Hfx.
    destruct (extractNewsData_resume u today o) as [us fx].
    cbn [log inflight snd] in *. split.
    + apply Forall_app. split; assumption.
    + apply remove_nth_Forall, Hfl.
  - destruct (ui w) as [st | x] eqn:Hui.
    + assert (Hgen :
        Forall issued_for_url
          (log (let '(us, fx) := handle st e in
                {| ui := rerender st us; inflight := inflight w;
                   log := (log w ++ fx)%list |})) /\
        Forall (fun u => u <> "")
          (inflight (let '(us, fx) := handle st e in
                {| ui := rerender st us; inflight := inflight w;
                   log := (log w ++ fx)%list |}))).
      { pose proof (handle_effects st e) as Hh.
        destruct (handle st e) as [us fx]. cbn [log inflight snd] in *.
        split; [apply Forall_app; split |]; assumption. }
      destruct e; try discriminate; cbn [step]; rewrite Hui;
        try (destruct (handle st _) as [us fx]; exact Hgen).
      destruct (generate_disabled (render st)); [split; assumption |].
      unfold extractNewsData_call.
      destruct (ToBoolean (Str (url st))) eqn:Hu; cbn [negb];
        [| split; assumption].
      apply ToBoolean_Str in Hu.
      cbn [log inflight]. split; apply Forall_app; split;
        try assumption; repeat constructor; [| exact Hu].
      exists (url st). split; [exact Hu | reflexivity].
    + destruct e; try discriminate; cbn [step]; rewrite Hui;
        split; assumption.
Qed.

Lemma apply_error_ok (st st' : State) (u : update) :
  error_ok st -> sets_known_error u -> apply st u = Ok st' -> error_ok st'.
Proof.
  unfold error_ok. intros Hst Hu H.
  destruct u; cbn [apply sets_known_error] in *;
    try (injection H as <-; cbn [error]; assumption).
  destruct (f (newsData st)); cbn [bind] in H; [| discriminate].
  injection H as <-. assumption.
Qed.

(** X1.  At most one call is in flight, and [loading] tells whether one
    is.  From the initial state, after any sequence of events, the
    number of calls of [extractNewsData] that await their response is 1
    when the mounted component shows [loading] and 0 when it does not;
    it is never more than 1. *)
Theorem one_call_in_flight (today : string) (es : list event) :
  (List.length (inflight (run (start today) es)) <= 1)%nat /\
  match ui (run (start today) es) with
  | Mounted st =>
      List.length (inflight (run (start today) es)) =
      if loading st then 1%nat else 0%nat
  | Unmounted _ => True
  end.
Proof.
  assert (H : one_flight (run (start today) es)).
  { unfold run. generalize (start today) (eq_refl : one_flight (start today)).
    induction es as [| e es IH]; intros w Hw; cbn [fold_left].
    - exact Hw.
    - apply IH, step_one_flight, Hw. }
  unfold one_flight in H.
  destruct (ui (run (start today) es)) as [st | x].
  - split; [| exact H]. rewrite H. destruct (loading st); auto.
  - split; [exact H | exact I].
Qed.

(** X2.  No request for an empty URL.  From the initial state, after any
    sequence of events, every request that was issued carries the
    prompt of a non-empty URL, and every call still in flight was made
    with a non-empty URL. *)
Theorem requests_have_url (today : string) (es : list event) :
  Forall issued_for_url (log (run (start today) es)) /\
  Forall (fun u => u <> "") (inflight (run (start today) es)).
Proof.
  change (requests_ok (run (start today) es)).
  assert (H0 : requests_ok (start today)) by (split; constructor).
  unfold run. revert H0. generalize (start today).
  induction es as [| e es IH]; intros w Hw; cbn [fold_left].
  - exact Hw.
  - apply IH, step_requests_ok, Hw.
Qed.

(** X3.  The error cell.  From the initial state, after any sequence of
    events, [error] is [null] or the one localized message of
    [extractNewsData], and the banner shows exactly what [error]
    holds. *)
Theorem error_is_the_message (today : string) (es : list event) :
  match ui (run (start today) es) with
  | Mounted st =>
      (error st = None \/ error st = Some extraction_error) /\
      error_box (render st) = error st
  | Unmounted _ => True
  end.
Proof.
  assert (H : on_screen error_ok (run (start today) es)).
  { apply (run_invariant error_ok sets_known_error).
    - apply apply_error_ok.
    - intros st e. eapply Forall_weaken; [| apply handle_updates].
      intros x Hx. apply Hx.
    - apply resume_known_error.
    - split; [exact I | left; reflexivity].
    - left. reflexivity. }
  unfold on_screen in H.
  destruct (ui (run (start today) es)) as [st | x]; [| exact I].
  split; [exact H |].
  cbn [render error_box]. destruct H as [-> | ->]; reflexivity.
Qed.

(** ** How the component can unmount *)




(** X5.  What a settling call keeps.  When a call in flight settles and
    the component stays mounted, the logo, the selected gradient, the
    font size and the URL input are those of the state at that moment,
    edits made while the call was in flight included; if the call
    failed, the whole of [newsData] is kept too. *)
Theorem settle_keeps_other_cells (w : World) (st st' : State) (k : nat)
  (o : result response) (today : string) :
  ui w = Mounted st ->
  ui (step w (Settle k o today)) = Mounted st' ->
  frame st st' /\
  (forall e, failure o = Some e -> newsData st' = newsData st).
Proof.
  intros Hui H. cbn [step] in H.
  destruct (nth_error (inflight w) k) as [u |].
  - unfold extractNewsData_resume, failure in *.
    destruct o as [r | err]; cbn [bind] in *.
    + destruct (JSON_parse (or_string (text r) "{}")) as [data | err];
        cbn [bind app ui] in H; rewrite Hui in H.
      * rewrite rerender_merge in H.
        destruct (merge data u today (newsData st)) as [nd |] eqn:Hm;
          [| discriminate].
        destruct (renders nd); [| discriminate].
        injection H as <-. apply merge_keeps_logoUrl in Hm.
        split; [repeat split; exact Hm | discriminate].
      * rewrite rerender_caught in H. injection H as <-.
        split; [repeat split | reflexivity].
    + cbn [ui] in H. rewrite Hui, rerender_caught in H. injection H as <-.
      split; [repeat split | reflexivity].
  - rewrite Hui in H. injection H as <-.
    split; [repeat split | reflexivity].
Qed.

(** X6.  The call keeps the URL it was made with.  A click on generate
    with URL [u], a change of the URL input to [v] while the call is in
    flight, then an empty response: the request and the [source]
    fallback are those of [u], whatever [v] is, and the input shows
    [v]. *)
Theorem settle_uses_clicked_url (st : State) (lg : list effect)
  (v today h : string) (r : response) :
  url st <> "" ->
  loading st = false ->
  JSON_parse (or_string (text r) "{}") = Ok (Obj []) ->
  URL_hostname (url st) = Ok h ->
  run (mkWorld (Mounted st) [] lg)
    [ClickGenerate; ChangeUrl v; Settle 0 (Ok r) today] =
  mkWorld
    (Mounted
       (mkState v false None
          (mkNewsData (Str title_not_found) (Str placeholder_image)
             (logoUrl (newsData st)) (Str today) (Str h))
          (selectedGradient st) (fontSize st)))
    [] (lg ++ [generateContent (prompt (url st))])%list.
Proof.
  intros Hu Hl Hp Hh.
  unfold run. cbn [fold_left step ui render generate_disabled].
  rewrite Hl. apply ToBoolean_Str in Hu as Ht. rewrite Ht. cbn [orb negb].
  rewrite (call_nonempty _ Hu).
  cbn [rerender apply_all apply bind ui handle inflight log app url loading
       error newsData selectedGradient fontSize nth_error].
  rewrite (resume_parsed _ _ _ _ Hp).
  cbn [remove_nth]. rewrite rerender_merge, merge_Obj.
  cbn [lookup ToBoolean]. unfold or_else. cbn [ToBoolean].
  rewrite Hh. cbn [bind newsData logoUrl url error selectedGradient fontSize].
  rewrite !List.app_nil_r. reflexivity.
Qed.

(** ** Running a call again *)

Lemma merge_from_logo (data : value) (u today : string)
  (prev prev' : NewsData) :
  logoUrl prev = logoUrl prev' ->
  merge data u today prev = merge data u today prev'.
Proof. unfold merge. intros ->. reflexivity. Qed.

(** X7.  Extraction is idempotent.  If a call ends with the component
    mounted, the same call (same response, same date) made from the
    resulting state gives that state again, with the same effects. *)
Theorem extract_again_same (st st' : State) (o : result response)
  (today : string) (fx : list effect) :
  extractNewsData st o today = (Mounted st', fx) ->
  extractNewsData st' o today = (Mounted st', fx).
Proof.
  destruct (String.eqb_spec (url st) "") as [Hu | Hu].
  - unfold extractNewsData at 1. rewrite Hu, call_empty.
    intros H. injection H as <- <-.
    unfold extractNewsData. rewrite Hu, call_empty. reflexivity.
  - rewrite (extractNewsData_nonempty _ _ _ Hu).
    unfold extractNewsData_resume.
    destruct o as [r | e]; cbn [bind].
    + destruct (JSON_parse (or_string (text r) "{}")) as [data | e] eqn:Hp;
        cbn [bind fst snd app].
      * rewrite rerender_merge.
        destruct (merge data (url st) today (newsData (suspended st)))
          as [nd | e] eqn:E; [| discriminate].
        destruct (renders nd) eqn:Hr; [| discriminate].
        intros H. injection H as <- <-.
        rewrite extractNewsData_nonempty by exact Hu.
        cbn [url]. unfold extractNewsData_resume. cbn [bind].
        rewrite Hp. cbn [bind fst snd app]. rewrite rerender_merge.
        cbn [suspended newsData url error selectedGradient fontSize].
        rewrite (merge_from_logo data (url st) today nd
                   (newsData (suspended st))), E, Hr; [reflexivity |].
        apply merge_keeps_logoUrl in E. exact E.
      * rewrite rerender_caught. intros H. injection H as <- <-.
        rewrite extractNewsData_nonempty by exact Hu.
        cbn [url]. unfold extractNewsData_resume. cbn [bind].
        rewrite Hp. reflexivity.
    + cbn [fst snd]. rewrite rerender_caught.
      intros H. injection H as <- <-.
      rewrite extractNewsData_nonempty by exact Hu. reflexivity.
Qed.

(** ** Responses that are not what the schema asks for *)

(** X8.  A [null] response escapes the [catch].  When the text of the
    response is JSON for [null], parsing succeeds, so the [catch] block
    does not run and no error message is set; the updater then reads a
    property of [null] and the render throws, whatever the URL is. *)
Theorem null_response_bypasses_catch (st : State) (r : response)
  (today : string) :
  url st <> "" ->
  JSON_parse (or_string (text r) "{}") = Ok Null ->
  extractNewsData_resume (url st) today (Ok r) =
    ([setNewsData (merge Null (url st) today); setLoading false], []) /\
  extractNewsData st (Ok r) today =
    (Unmounted TypeError, [generateContent (prompt (url st))]).
Proof.
  intros Hu Hp. split.
  - apply resume_parsed, Hp.
  - rewrite (extractNewsData_nonempty _ _ _ Hu), (resume_parsed _ _ _ _ Hp).
    cbn [fst snd]. rewrite rerender_merge. reflexivity.
Qed.

(** X9.  A response that is a JSON array, string, number or boolean has
    none of the four properties: with a URL that parses, the call
    succeeds with the four fallbacks, as for the empty object. *)
Theorem non_object_response_all_fallbacks (st : State) (r : response)
  (today h : string) (data : value) :
  url st <> "" ->
  JSON_parse (or_string (text r) "{}") = Ok data ->
  match data with
  | Bool _ | Num _ | Str _ | Arr _ => True
  | _ => False
  end ->
  URL_hostname (url st) = Ok h ->
  extractNewsData st (Ok r) today =
  (Mounted
     (mkState (url st) false None
        (mkNewsData (Str title_not_found) (Str placeholder_image)
           (logoUrl (newsData st)) (Str today) (Str h))
        (selectedGradient st) (fontSize st)),
   [generateContent (prompt (url st))]).
Proof.
  intros Hu Hp Hd Hh.
  rewrite (extractNewsData_nonempty _ _ _ Hu), (resume_parsed _ _ _ _ Hp).
  cbn [fst snd]. rewrite rerender_merge.
  assert (Hm : merge data (url st) today (newsData (suspended st)) =
               Ok (mkNewsData (Str title_not_found) (Str placeholder_image)
                     (logoUrl (newsData st)) (Str today) (Str h))).
  { unfold merge. destruct data; try contradiction;
      cbn [get bind or_else ToBoolean]; rewrite Hh; reflexivity. }
  rewrite Hm. reflexivity.
Qed.

(** ** What a successful extraction leaves on the card *)


(** X11.  What an extraction overwrites.  On a response that parses, the
    outcome does not depend on the previous [title], [imageUrl], [date]
    and [source], nor on the previous [loading] and [error]: edits made
    by hand to those four fields are lost, only [logoUrl] is carried
    over. *)
Theorem extraction_overwrites_edits (st : State) (r : response)
  (today : string) (data t i d s : value) (l : bool) (e : option string) :
  url st <> "" ->
  JSON_parse (or_string (text r) "{}") = Ok data ->
  extractNewsData
    (mkState (url st) l e
       (mkNewsData t i (logoUrl (newsData st)) d s)
       (selectedGradient st) (fontSize st))
    (Ok r) today =
  extractNewsData st (Ok r) today.
Proof.
  intros Hu Hp.
  rewrite !extractNewsData_nonempty by exact Hu.
  cbn [url]. rewrite (resume_parsed _ _ _ _ Hp). cbn [fst snd].
  rewrite !rerender_merge.
  cbn [suspended newsData url error selectedGradient fontSize].
  rewrite (merge_from_logo data (url st) today
             (mkNewsData t i (logoUrl (newsData st)) d s) (newsData st))
    by reflexivity.
  reflexivity.
Qed.

(** ** The generate button *)

(** X12.  A click on generate.  While a call is loading, or with an empty
    URL input, the click does nothing: no second request.  Otherwise it
    turns [loading] on, clears a previous error message, leaves the
    rest of the state, issues one request for the URL in the input and
    records the call as in flight. *)
Theorem generate_click (st : State) (fl : list string) (lg : list effect) :
  step (mkWorld (Mounted st) fl lg) ClickGenerate =
  if (loading st || String.eqb (url st) "")%bool
  then mkWorld (Mounted st) fl lg
  else mkWorld
         (Mounted
            (mkState (url st) true None (newsData st)
               (selectedGradient st) (fontSize st)))
         (fl ++ [url st]) (lg ++ [generateContent (prompt (url st))])%list.
Proof.
  cbn [step ui render generate_disabled ToBoolean].
  unfold extractNewsData_call. cbn [ToBoolean].
  rewrite negb_involutive.
  destruct (loading st); cbn [orb]; [reflexivity |].
  destruct (String.eqb (url st) ""); reflexivity.
Qed.

(** ** The theme picker *)

(** X13.  A click on a theme button.  A click on the [i]th button selects
    the [i]th entry of [GRADIENTS] and changes nothing else (state,
    calls in flight, effects); there is no button beyond the fifth.
    After the click that button, and only that one, is drawn as
    selected. *)
Theorem gradient_click_selects (st : State) (fl : list string)
  (lg : list effect) (i : nat) :
  step (mkWorld (Mounted st) fl lg) (ClickGradient i) =
    mkWorld
      (Mounted
         (mkState (url st) (loading st) (error st) (newsData st)
            (nth i GRADIENTS (selectedGradient st)) (fontSize st)))
      fl lg /\
  nth_error (gradient_buttons (render st)) 5 = None /\
  (forall g,
     nth_error GRADIENTS i = Some g ->
     highlighted_keys
       (render (mkState (url st) (loading st) (error st) (newsData st)
                  g (fontSize st))) = [id g]).
Proof.
  split; [| split].
  - cbn [step ui]. rewrite handle_gradient.
    destruct i as [| [| [| [| [| [| i]]]]]]; cbn;
      rewrite List.app_nil_r; try reflexivity;
      destruct st; reflexivity.
  - reflexivity.
  - intros g Hg.
    destruct i as [| [| [| [| [| i]]]]]; cbn in Hg;
      try (injection Hg as <-; reflexivity).
    destruct i; discriminate.
Qed.

(** X14.  One theme is shown as selected.  From the initial state, after
    any sequence of events, exactly one button of the theme picker is
    drawn as selected: the one of the selected gradient. *)
Theorem one_theme_highlighted (today : string) (es : list event) :
  match ui (run (start today) es) with
  | Mounted st => highlighted_keys (render st) = [id (selectedGradient st)]
  | Unmounted _ => True
  end.
Proof.
  pose proof (run_preset es _ (start_preset today)) as H.
  unfold world_preset, preset in H.
  destruct (ui (run (start today) es)) as [st | x]; [| exact I].
  unfold highlighted_keys. cbn [render gradient_buttons].
  cbn [In GRADIENTS] in H.
  repeat (destruct H as [<- | H]; [reflexivity |]).
  contradiction.
Qed.

(** ** Edits by hand *)

(** X15.  The three text fields.  Editing the title, the date and the
    source sets each to the text typed and nothing else; the order of
    the three edits does not matter, and of two edits of one field the
    later stays. *)
Theorem text_edits_commute (st : State) (fl : list string)
  (lg : list effect) (a a' b c : string) :
  let final :=
    mkWorld
      (Mounted
         (mkState (url st) (loading st) (error st)
            (mkNewsData (Str a) (imageUrl (newsData st))
               (logoUrl (newsData st)) (Str b) (Str c))
            (selectedGradient st) (fontSize st)))
      fl lg in
  run (mkWorld (Mounted st) fl lg)
    [ChangeTitle a; ChangeDate b; ChangeSource c] = final /\
  run (mkWorld (Mounted st) fl lg)
    [ChangeSource c; ChangeDate b; ChangeTitle a] = final /\
  run (mkWorld (Mounted st) fl lg)
    [ChangeTitle a'; ChangeDate b; ChangeSource c; ChangeTitle a] = final.
Proof.
  cbn. rewrite !List.app_nil_r. repeat split.
Qed.

(** X16.  Choosing image files.  A file chosen for the hero image or the
    logo puts what was read into that field and changes nothing else;
    a change event without a file changes nothing.  The two choices
    commute, and of two choices for one field the later stays.  The
    badge then shows the logo as an image when what was read is truthy
    and the built-in glyph otherwise (a failed read gives [null]). *)
Theorem file_choices (st : State) (fl : list string) (lg : list effect)
  (img img' lgo : value) (f : image_field) :
  let final :=
    mkWorld
      (Mounted
         (mkState (url st) (loading st) (error st)
            (mkNewsData (title (newsData st)) img lgo
               (date (newsData st)) (source (newsData st)))
            (selectedGradient st) (fontSize st)))
      fl lg in
  run (mkWorld (Mounted st) fl lg)
    [ChooseFile field_imageUrl (Some img);
     ChooseFile field_logoUrl (Some lgo)] = final /\
  run (mkWorld (Mounted st) fl lg)
    [ChooseFile field_logoUrl (Some lgo);
     ChooseFile field_imageUrl (Some img');
     ChooseFile f None;
     ChooseFile field_imageUrl (Some img)] = final /\
  src (hero (render
        (mkState (url st) (loading st) (error st)
            (mkNewsData (title (newsData st)) img lgo
               (date (newsData st)) (source (newsData st)))
            (selectedGradient st) (fontSize st)))) = img /\
  logo (render
        (mkState (url st) (loading st) (error st)
            (mkNewsData (title (newsData st)) img lgo
               (date (newsData st)) (source (newsData st)))
            (selectedGradient st) (fontSize st))) =
    (if ToBoolean lgo then logo_img (mkImg lgo None) else logo_glyph).
Proof.
  cbn. rewrite !List.app_nil_r. repeat split.
Qed.

(** ** Children that cannot be rendered *)

(** X21.  A response field that is an object.  When the response parses
    and the updater returns a card whose [title], [date] or [source]
    is not a valid child (an object, or an array holding one), the
    [try] block completes normally, so no error message is set, and
    the render of the card throws: the component is unmounted. *)
Theorem object_child_unmounts (st : State) (r : response) (today : string)
  (data : value) (nd : NewsData) :
  url st <> "" ->
  JSON_parse (or_string (text r) "{}") = Ok data ->
  merge data (url st) today (newsData st) = Ok nd ->
  renders nd = false ->
  extractNewsData_resume (url st) today (Ok r) =
    ([setNewsData (merge data (url st) today); setLoading false], []) /\
  extractNewsData st (Ok r) today =
    (Unmounted InvalidChild, [generateContent (prompt (url st))]).
Proof.
  intros Hu Hp Hm Hr. split.
  - apply resume_parsed, Hp.
  - rewrite (extract_stored st r today data nd Hu Hp Hm), Hr. reflexivity.
Qed.

(** The card a control leaves can be rendered if the one it found
    could: a control stores strings in [title], [date] and [source],
    or touches none of them. *)
Lemma control_keeps_renderable (st st' : State) (e : event) :
  renders (newsData st) = true ->
  rerender st (fst (handle st e)) = Mounted st' ->
  renders (newsData st') = true.
Proof.
  unfold renders. intros Hr.
  apply andb_prop in Hr as [Hr Hs]. apply andb_prop in Hr as [Ht Hd].
  destruct e; try rewrite handle_gradient;
    try (destruct file as [res |]; [destruct f |]);
    try (destruct (nth_error GRADIENTS i));
    try (destruct png); try (destruct which);
    cbn [handle handleFileChange downloadCard render logo hero
         dispatch_error onError hero_onError updates fst snd];
    try (destruct (ToBoolean (logoUrl (newsData st)));
         cbn [dispatch_error onError snd]);
    cbn [rerender apply_all apply bind put with_field];
    intros H; injection H as <-;
    cbn [newsData title date source renderable];
    rewrite ?Ht, ?Hd, ?Hs; reflexivity.
Qed.

Lemma step_renderable (w : World) (e : event) :
  on_screen (fun st => renders (newsData st) = true) w ->
  on_screen (fun st => renders (newsData st) = true) (step w e).
Proof.
  unfold on_screen. intros Hw.
  destruct (is_Settle e) eqn:Hs.
  - destruct e; try discriminate. cbn [step].
    destruct (nth_error (inflight w) k) as [u |]; [| exact Hw].
    unfold extractNewsData_resume.
    destruct o as [r | err]; cbn [bind].
    + destruct (JSON_parse (or_string (text r) "{}")) as [data | err];
        cbn [bind app ui]; destruct (ui w) as [st | x]; try exact I.
      * rewrite rerender_merge.
        destruct (merge data u today (newsData st)) as [nd |];
          [| exact I].
        destruct (renders nd) eqn:Hr; [exact Hr | exact I].
      * rewrite rerender_caught. exact Hw.
    + cbn [ui]. destruct (ui w) as [st | x]; [| exact I].
      rewrite rerender_caught. exact Hw.
  - destruct (ui w) as [st | x] eqn:Hui.
    + assert (Hgen :
        match ui (let '(us, fx) := handle st e in
                  {| ui := rerender st us; inflight := inflight w;
                     log := (log w ++ fx)%list |}) with
        | Mounted st' => renders (newsData st') = true
        | Unmounted _ => True
        end).
      { pose proof (control_keeps_renderable st) as Hk.
        specialize (fun st' => Hk st' e Hw).
        destruct (handle st e) as [us fx]. cbn [ui fst] in *.
        destruct (rerender st us) as [st' | x]; [| exact I].
        apply Hk. reflexivity. }
      destruct e; try discriminate; cbn [step]; rewrite Hui;
        try exact Hgen.
      destruct (generate_disabled (render st)); [rewrite Hui; exact Hw |].
      unfold extractNewsData_call.
      destruct (negb (ToBoolean (Str (url st)))); [rewrite Hui; exact Hw |].
      cbn [ui rerender apply_all apply bind newsData]. exact Hw.
    + destruct e; try discriminate; cbn [step]; rewrite Hui;
        rewrite Hui; exact I.
Qed.

(** X22.  The card on screen can be rendered.  From the initial state,
    after any sequence of events, the [title], [date] and [source] of
    the mounted component are valid children: none is an object. *)
Theorem card_always_renderable (today : string) (es : list event) :
  match ui (run (start today) es) with
  | Mounted st =>
      renderable (title (newsData st)) = true /\
      renderable (date (newsData st)) = true /\
      renderable (source (newsData st)) = true
  | Unmounted _ => True
  end.
Proof.
  assert (H : on_screen (fun st => renders (newsData st) = true)
                (run (start today) es)).
  { unfold run.
    assert (H0 : on_screen (fun st => renders (newsData st) = true)
                   (start today)) by reflexivity.
    revert H0. generalize (start today).
    induction es as [| e es IH]; intros w Hw; cbn [fold_left].
    - exact Hw.
    - apply IH, step_renderable, Hw. }
  unfold on_screen, renders in H.
  destruct (ui (run (start today) es)) as [st | x]; [| exact I].
  apply andb_prop in H as [H Hs]. apply andb_prop in H as [Ht Hd].
  auto.
Qed.

End Component.


(** ** The font size *)

Lemma decimal_digits_step (c : ascii) (r : string) (k acc : Z) (cnt : nat) :
  digit_of c = Some k ->
  decimal_digits acc cnt (String c r) =
  decimal_digits (10 * acc + k) (S cnt) r.
Proof.
  intros H. unfold decimal_digits. cbn [digits]. rewrite H.
  assert (Hk : (k <? 10) = true).
  { unfold digit_of in H.
    destruct ((48 <=? nat_of_ascii c)%nat && (nat_of_ascii c <=? 57)%nat)
      eqn:E; [| discriminate].
    injection H as <-.
    apply andb_true_iff in E. destruct E as [E1 E2].
    apply Nat.leb_le in E1, E2. apply Z.ltb_lt. lia. }
  rewrite Hk. reflexivity.
Qed.

Lemma decimal_digits_numeral (d : Decimal.uint) :
  forall acc cnt,
    decimal_digits acc cnt (NilEmpty.string_of_uint d) =
    (uint_value acc d, (cnt + Decimal.nb_digits d)%nat, "").
Proof.
  induction d; intros acc cnt;
    cbn [NilEmpty.string_of_uint uint_value Decimal.nb_digits];
    try (erewrite decimal_digits_step by reflexivity;
         rewrite IHd, Nat.add_succ_r; reflexivity).
  unfold decimal_digits. cbn [digits]. rewrite Nat.add_0_r. reflexivity.
Qed.

Lemma uint_value_acc (d : Decimal.uint) :
  forall acc : positive,
    uint_value (Zpos acc) d = Zpos (Pos.of_uint_acc d acc).
Proof.
  induction d; intros acc; cbn [uint_value Pos.of_uint_acc];
    try reflexivity;
    try (rewrite <- IHd; f_equal; lia).
Qed.

Lemma uint_value_of_uint (d : Decimal.uint) :
  uint_value 0 d = Z.of_N (Pos.of_uint d).
Proof.
  induction d; cbn [uint_value Pos.of_uint]; try reflexivity;
    try exact IHd;
    try (change (10 * 0 + ?k) with k; apply uint_value_acc).
Qed.

Lemma uint_value_to_uint (p : positive) :
  uint_value 0 (Pos.to_uint p) = Zpos p.
Proof.
  rewrite uint_value_of_uint, DecimalPos.Unsigned.of_to. reflexivity.
Qed.

Lemma trim_end_numeral (d : Decimal.uint) :
  trim_end_aux (NilEmpty.string_of_uint d) =
  match d with
  | Decimal.Nil => None
  | _ => Some (NilEmpty.string_of_uint d)
  end.
Proof.
  induction d; cbn [NilEmpty.string_of_uint trim_end_aux];
    try reflexivity;
    rewrite IHd; destruct d; reflexivity.
Qed.

Lemma trim_numeral (d : Decimal.uint) :
  trim (NilEmpty.string_of_uint d) = NilEmpty.string_of_uint d.
Proof.
  unfold trim.
  assert (H : trim_start (NilEmpty.string_of_uint d) =
              NilEmpty.string_of_uint d) by (destruct d; reflexivity).
  rewrite H, trim_end_numeral. destruct d; reflexivity.
Qed.

Lemma non_decimal_numeral (d : Decimal.uint) :
  non_decimal_literal (NilEmpty.string_of_uint d) = None.
Proof.
  destruct d as [| d | d | d | d | d | d | d | d | d | d];
    try reflexivity.
  destruct d; reflexivity.
Qed.

Lemma unsigned_decimal_numeral (d : Decimal.uint) :
  d <> Decimal.Nil ->
  unsigned_decimal (NilEmpty.string_of_uint d) = Some (uint_value 0 d # 1).
Proof.
  intros Hd. unfold unsigned_decimal.
  rewrite decimal_digits_numeral. cbn [Nat.add].
  destruct (Decimal.nb_digits d) eqn:E.
  - destruct d; try contradiction; discriminate.
  - reflexivity.
Qed.

Lemma decimal_literal_numeral (d : Decimal.uint) :
  d <> Decimal.Nil ->
  decimal_literal (NilEmpty.string_of_uint d) =
  Some (of_Z (uint_value 0 d)).
Proof.
  intros Hd.
  assert (H : decimal_literal (NilEmpty.string_of_uint d) =
              option_map Finite (unsigned_decimal (NilEmpty.string_of_uint d)))
    by (destruct d; try contradiction; reflexivity).
  rewrite H, (unsigned_decimal_numeral d Hd). reflexivity.
Qed.

(** The value of the decimal numeral of a positive integer. *)
Lemma mathematical_value_numeral (p : positive) :
  mathematical_value (string_of_Z (Zpos p)) = of_Z (Zpos p).
Proof.
  unfold string_of_Z. cbn [Z.to_int NilZero.string_of_int].
  assert (Hnil : Pos.to_uint p <> Decimal.Nil)
    by apply DecimalPos.Unsigned.to_uint_nonnil.
  assert (Hs : NilZero.string_of_uint (Pos.to_uint p) =
               NilEmpty.string_of_uint (Pos.to_uint p)).
  { unfold NilZero.string_of_uint. destruct (Pos.to_uint p);
      [contradiction | reflexivity ..]. }
  rewrite Hs. unfold mathematical_value. rewrite trim_numeral.
  assert (Hne : String.eqb (NilEmpty.string_of_uint (Pos.to_uint p)) "" = false)
    by (destruct (Pos.to_uint p); [contradiction | reflexivity ..]).
  rewrite Hne, non_decimal_numeral, (decimal_literal_numeral _ Hnil).
  rewrite uint_value_to_uint. reflexivity.
Qed.


Lemma unsigned_literal_numeral (d : Decimal.uint) :
  d <> Decimal.Nil ->
  unsigned_literal (NilEmpty.string_of_uint d) =
  Some (of_Z (uint_value 0 d)).
Proof.
  intros Hd. unfold unsigned_literal.
  assert (H : String.eqb (NilEmpty.string_of_uint d) "Infinity" = false)
    by (destruct d; reflexivity).
  rewrite H, (unsigned_decimal_numeral d Hd). reflexivity.
Qed.

(** The value of the decimal numeral of any integer. *)
Lemma mathematical_value_string_of_Z (z : Z) :
  mathematical_value (string_of_Z z) = of_Z z.
Proof.
  destruct z as [| p | p].
  - reflexivity.
  - apply mathematical_value_numeral.
  - unfold string_of_Z. cbn [Z.to_int NilZero.string_of_int].
    assert (Hnil : Pos.to_uint p <> Decimal.Nil)
      by apply DecimalPos.Unsigned.to_uint_nonnil.
    assert (Hs : NilZero.string_of_uint (Pos.to_uint p) =
                 NilEmpty.string_of_uint (Pos.to_uint p)).
    { unfold NilZero.string_of_uint. destruct (Pos.to_uint p);
        [contradiction | reflexivity ..]. }
    rewrite Hs. unfold mathematical_value, trim. cbn [trim_start is_space].
    change (is_space "-") with false. cbn iota.
    cbn [trim_end_aux]. rewrite trim_end_numeral.
    destruct (Pos.to_uint p) eqn:E; try contradiction;
      rewrite <- E in *;
      cbn [String.eqb Ascii.eqb Bool.eqb non_decimal_literal
           decimal_literal];
      rewrite (unsigned_literal_numeral _ Hnil), uint_value_to_uint;
      reflexivity.
Qed.

Lemma string_of_Z_inj (a b : Z) : string_of_Z a = string_of_Z b -> a = b.
Proof.
  intros H. apply (f_equal mathematical_value) in H.
  rewrite !mathematical_value_string_of_Z in H. injection H as H. exact H.
Qed.

(** *** Rounding is exact on the integers up to [2^53] *)

Lemma binade_integer (a : Z) : 0 < a -> binade a 1 = Z.log2 a.
Proof.
  intros Ha. unfold binade. change (Z.log2 1) with 0. rewrite Z.sub_0_r.
  pose proof (Z.log2_nonneg a) as Hl.
  apply Z.leb_le in Hl as Hb. rewrite Hb.
  pose proof (Z.log2_spec a Ha) as [Hlo _].
  rewrite Z.mul_1_l. apply Z.leb_le in Hlo. rewrite Hlo. reflexivity.
Qed.

Lemma round_half_even_1 (n : Z) : round_half_even n 1 = n.
Proof.
  unfold round_half_even. rewrite Z.mod_1_r, Z.div_1_r. reflexivity.
Qed.

Lemma Qred_scaled (a k : Z) :
  0 <= k -> Qred (a * 2 ^ k # Z.to_pos (2 ^ k)) = a # 1.
Proof.
  intros Hk.
  rewrite <- (Qred_identity (a # 1)) by (cbn [Qnum Qden]; apply Z.gcd_1_r).
  apply Qred_complete. unfold Qeq. cbn [Qnum Qden].
  rewrite Z2Pos.id by (apply Z.pow_pos_nonneg; lia). lia.
Qed.

Lemma binary64_positive_integer (a : Z) :
  0 < a <= 2 ^ 53 -> binary64 (a # 1) = Finite (a # 1).
Proof.
  intros [Hlo Hhi].
  assert (Hl : 0 <= Z.log2 a <= 53).
  { split; [apply Z.log2_nonneg |].
    change 53 with (Z.log2 (2 ^ 53)). apply Z.log2_le_mono, Hhi. }
  unfold binary64. cbn [Qnum Qden].
  rewrite (Z.abs_eq a) by lia.
  assert (H0 : (a =? 0) = false) by (apply Z.eqb_neq; lia).
  assert (Hneg : (a <? 0) = false) by (apply Z.ltb_ge; lia).
  rewrite H0, Hneg, (binade_integer a Hlo).
  rewrite Z.max_l by lia.
  destruct (Z.eq_dec (Z.log2 a) 53) as [E | E].
  - assert (Ha : a = 2 ^ 53).
    { pose proof (Z.log2_spec a Hlo) as [H _]. rewrite E in H. lia. }
    subst a. vm_compute. reflexivity.
  - destruct (Z.eq_dec (Z.log2 a) 52) as [E2 | E2].
    + rewrite E2. change (52 - 52) with 0. cbn [Z.leb Z.compare andb].
      change (1 * 2 ^ 0) with 1. rewrite round_half_even_1.
      change (2 ^ 0) with 1. rewrite Z.mul_1_r.
      assert (Hov : (2 ^ 1024 <=? a) = false) by (apply Z.leb_gt; lia).
      rewrite Hov. unfold scale2. cbn [Z.leb Z.compare].
      change (2 ^ 0) with 1. rewrite Z.mul_1_r. reflexivity.
    + assert (Hu : (0 <=? Z.log2 a - 52) = false) by (apply Z.leb_gt; lia).
      rewrite Hu. cbn [andb]. rewrite round_half_even_1.
      unfold scale2. rewrite Hu.
      rewrite Qred_scaled by lia. reflexivity.
Qed.

Lemma binary64_opp (n : Z) (d : positive) :
  0 < n -> binary64 ((- n) # d) = negate (binary64 (n # d)).
Proof.
  intros Hn. unfold binary64. cbn [Qnum Qden]. rewrite Z.abs_opp.
  assert (H1 : (- n <? 0) = true) by (apply Z.ltb_lt; lia).
  assert (H2 : (n <? 0) = false) by (apply Z.ltb_ge; lia).
  assert (H3 : (Z.abs n =? 0) = false) by (apply Z.eqb_neq; lia).
  rewrite H1, H2, H3.
  match goal with
  | |- context [if ?c then Infinity true else _] => destruct c
  end; reflexivity.
Qed.

Lemma binary64_integer (z : Z) :
  Z.abs z <= 2 ^ 53 -> binary64 (z # 1) = Finite (z # 1).
Proof.
  intros H. destruct z as [| p | p].
  - reflexivity.
  - apply binary64_positive_integer. lia.
  - change (Z.neg p) with (- Z.pos p).
    rewrite binary64_opp by lia.
    rewrite binary64_positive_integer by lia. reflexivity.
Qed.

(** [Number] reads back the decimal numeral of an integer of magnitude
    at most [2^53]. *)
Lemma Number_string_of_Z (z : Z) :
  Z.abs z <= 2 ^ 53 -> Number (string_of_Z z) = of_Z z.
Proof.
  intros H. unfold Number. rewrite mathematical_value_string_of_Z.
  apply binary64_integer, H.
Qed.

Lemma length_append (a s : string) :
  String.length (a ++ s) = (String.length a + String.length s)%nat.
Proof.
  induction a as [| c a IH]; cbn [String.append String.length].
  - reflexivity.
  - rewrite IH. reflexivity.
Qed.

Lemma append_same_tail (s : string) (a : string) :
  forall b, (a ++ s = b ++ s)%string -> a = b.
Proof.
  induction a as [| c a IH]; intros b H.
  - destruct b as [| c' b]; [reflexivity |].
    apply (f_equal String.length) in H.
    cbn [String.append String.length] in H.
    rewrite length_append in H. lia.
  - destruct b as [| c' b].
    + apply (f_equal String.length) in H.
      cbn [String.append String.length] in H.
      rewrite length_append in H. lia.
    + cbn [String.append] in H. injection H as -> H.
      f_equal. apply IH, H.
Qed.

(** ** Export, completed *)

(** X17.  A successful export.  When [toPng] succeeds, [downloadCard]
    calls it once and starts one download, named [news-card-<now>.png]
    and carrying the data URL; the state is not changed.  With no card
    element it does nothing at all.  Exports at different timestamps
    have different file names. *)
Theorem download_success (JSON_parse : string -> result value)
  (URL_hostname : string -> result string) (st : State)
  (fl : list string) (lg : list effect) (dataUrl : string) (now now' : Z)
  (png : result string) :
  step JSON_parse URL_hostname (mkWorld (Mounted st) fl lg)
    (ClickDownload (Ok dataUrl) now) =
    mkWorld (Mounted st) fl
      (lg ++ [toPng;
              download ("news-card-" ++ string_of_Z now ++ ".png") dataUrl])
      %list /\
  downloadCard None png now = ([], []) /\
  ("news-card-" ++ string_of_Z now ++ ".png" =
   "news-card-" ++ string_of_Z now' ++ ".png" -> now = now').
Proof.
  split; [reflexivity | split; [reflexivity |]].
  intros H. cbn [String.append] in H.
  injection H as H.
  apply string_of_Z_inj, (append_same_tail ".png"), H.
Qed.

(** X18.  A font-size edit.  It changes [fontSize] and nothing else, and
    typing the decimal numeral of an integer of magnitude at most
    [2^53], zero or negative included, stores that integer. *)
Theorem fontSize_edit_integer (JSON_parse : string -> result value)
  (URL_hostname : string -> result string) (st : State)
  (fl : list string) (lg : list effect) (z : Z) :
  Z.abs z <= 2 ^ 53 ->
  step JSON_parse URL_hostname (mkWorld (Mounted st) fl lg)
    (ChangeFontSize (string_of_Z z)) =
  mkWorld
    (Mounted
       (mkState (url st) (loading st) (error st) (newsData st)
          (selectedGradient st) (of_Z z)))
    fl lg.
Proof.
  intros Hz.
  cbn [step ui handle rerender apply_all apply bind].
  rewrite (Number_string_of_Z z Hz), List.app_nil_r. reflexivity.
Qed.

Lemma is_positive_integer_of_Z (p : positive) :
  is_positive_integer (of_Z (Zpos p)) = true.
Proof.
  unfold is_positive_integer, of_Z.
  rewrite Qred_identity by (cbn [Qnum Qden]; apply Z.gcd_1_r).
  reflexivity.
Qed.

(** C5 (as amended).  The font size is the positive integer 24 at
    initialization.  A font-size edit stores [Number(v)] for the value
    [v] of the control, whatever it is; when [v] is the decimal numeral
    of a positive integer not above [2^53], that integer is stored. *)
Theorem fontSize_stores_Number (today : string) (st : State) (v : string)
  (p : positive) :
  Zpos p <= 2 ^ 53 ->
  fontSize (initial today) = of_Z 24 /\
  is_positive_integer (fontSize (initial today)) = true /\
  rerender st (fst (handle st (ChangeFontSize v))) =
    Mounted (mkState (url st) (loading st) (error st) (newsData st)
               (selectedGradient st) (Number v)) /\
  Number (string_of_Z (Zpos p)) = of_Z (Zpos p) /\
  is_positive_integer (Number (string_of_Z (Zpos p))) = true.
Proof.
  intros Hp.
  assert (H : Number (string_of_Z (Zpos p)) = of_Z (Zpos p))
    by (apply Number_string_of_Z; lia).
  repeat split.
  - exact H.
  - rewrite H. apply is_positive_integer_of_Z.
Qed.

(* ================================================================== *)
(** * The component on concrete inputs *)
(* ================================================================== *)

Example scenario_parses :
  Reference.JSON_parse scenario_text = Ok (Obj scenario_props).
Proof. vm_compute. reflexivity. Qed.

Example sourceless_parses :
  Reference.JSON_parse sourceless_text = Ok (Obj sourceless_props).
Proof. vm_compute. reflexivity. Qed.

Example article_hostname : Reference.URL_hostname article = Ok "example.com".
Proof. vm_compute. reflexivity. Qed.

Example schemeless_throws : Reference.URL_hostname schemeless = Throw TypeError.
Proof. vm_compute. reflexivity. Qed.



(** C1, where the code departs from it.  The response parses and has a
    non-empty title, its [source] is empty, and the URL was typed
    without a scheme: [new URL(url).hostname] throws in the updater,
    past the [catch]; the title is not stored, no message is shown,
    the component is gone. *)
Lemma extraction_fields_schemeless :
  Reference.JSON_parse sourceless_text = Ok (Obj sourceless_props) /\
  lookup "title" sourceless_props = Str "টেস্ট শিরোনাম" /\
  extractNewsData Reference.JSON_parse Reference.URL_hostname
      (typed schemeless) (Ok (mkResponse (Some sourceless_text))) "আজ" =
    (Unmounted TypeError, [generateContent (prompt schemeless)]).
Proof. vm_compute. repeat split. Qed.



Lemma empty_response_article :
  extractNewsData Reference.JSON_parse Reference.URL_hostname
      (typed article) (Ok (mkResponse None)) "আজ" =
  (Mounted
     (mkState article false None
        (mkNewsData (Str title_not_found) (Str placeholder_image)
           (logoUrl (newsData (typed article))) (Str "আজ")
           (Str "example.com"))
        (selectedGradient (typed article)) (fontSize (typed article))),
   [generateContent (prompt article)]).
Proof.
  apply (empty_response_fallbacks Reference.JSON_parse Reference.URL_hostname
           (typed article) (mkResponse None) "আজ" "example.com").
  - vm_compute. reflexivity.
  - discriminate.
  - left. reflexivity.
  - vm_compute. reflexivity.
Defined.

(** C9, where the code departs from it.  The response has no text and
    the URL was typed without a scheme: the source fallback
    [new URL(url).hostname] throws in the updater, past the [catch];
    the call is not a success, no message is shown, the component is
    gone. *)
Lemma empty_response_schemeless :
  extractNewsData Reference.JSON_parse Reference.URL_hostname
      (typed schemeless) (Ok (mkResponse None)) "আজ" =
  (Unmounted TypeError, [generateContent (prompt schemeless)]).
Proof. vm_compute. reflexivity. Qed.


Lemma extraction_failure_rejected :
  extractNewsData Reference.JSON_parse Reference.URL_hostname
      (typed article) (Throw (Rejection "Failed to fetch")) "আজ" =
  (Mounted
     (mkState (url (typed article)) false (Some extraction_error)
        (newsData (typed article)) (selectedGradient (typed article))
        (fontSize (typed article))),
   [generateContent (prompt (url (typed article)));
    console_error None (Rejection "Failed to fetch")]) /\
  error_box
    (render
       (mkState (url (typed article)) false (Some extraction_error)
          (newsData (typed article)) (selectedGradient (typed article))
          (fontSize (typed article)))) = Some extraction_error /\
  extraction_error <> "".
Proof.
  apply (extraction_failure_atomic Reference.JSON_parse
           Reference.URL_hostname (typed article)
           (Throw (Rejection "Failed to fetch")) "আজ"
           (Rejection "Failed to fetch")).
  - discriminate.
  - reflexivity.
Defined.

Lemma extract_empty_url_initial :
  extractNewsData_call (url (initial "আজ")) = None /\
  extractNewsData Reference.JSON_parse Reference.URL_hostname
      (initial "আজ") (Ok (mkResponse (Some scenario_text))) "আজ" =
    (Mounted (initial "আজ"), []) /\
  step Reference.JSON_parse Reference.URL_hostname
    (mkWorld (Mounted (initial "আজ")) [] []) ClickGenerate =
    mkWorld (Mounted (initial "আজ")) [] [].
Proof.
  apply (extract_empty_url_noop Reference.JSON_parse Reference.URL_hostname
           (initial "আজ") (Ok (mkResponse (Some scenario_text))) "আজ" [] []).
  reflexivity.
Defined.

Lemma fontSize_stores_24 :
  fontSize (initial "আজ") = of_Z 24 /\
  is_positive_integer (fontSize (initial "আজ")) = true /\
  rerender (typed article)
    (fst (handle (typed article) (ChangeFontSize "24"))) =
    Mounted (mkState (url (typed article)) (loading (typed article))
               (error (typed article)) (newsData (typed article))
               (selectedGradient (typed article)) (Number "24")) /\
  Number (string_of_Z 24) = of_Z 24 /\
  is_positive_integer (Number (string_of_Z 24)) = true.
Proof.
  apply (fontSize_stores_Number "আজ" (typed article) "24" 24%positive).
  vm_compute. discriminate.
Defined.

(** The claim C5 as stated fails: clearing the font-size control
    reports the empty string, and typing [-5] reports that; the stored
    sizes are 0 and -5. *)
Lemma fontSize_not_positive :
  rerender (initial "আজ") (fst (handle (initial "আজ") (ChangeFontSize ""))) =
    Mounted (mkState "" false None (newsData (initial "আজ"))
               (selectedGradient (initial "আজ")) (of_Z 0)) /\
  is_positive_integer (of_Z 0) = false /\
  Number "-5" = of_Z (-5) /\
  is_positive_integer (Number "-5") = false /\
  is_positive_integer (Number "1.5") = false.
Proof. vm_compute. repeat split. Qed.

(** The claim C6 as stated fails for the logo: once a logo is chosen,
    the badge is an [img] with no [onError] handler, so when the URL
    fails to load the element keeps it and no placeholder is shown. *)
Lemma logo_error_not_substituted :
  exists st i,
    rerender (initial "আজ")
      (handleFileChange (Some (Str text_file)) field_logoUrl) = Mounted st /\
    logo (render st) = logo_img i /\
    onError i = None /\
    dispatch_error i = (i, []) /\
    src (fst (dispatch_error i)) = Str text_file /\
    src (fst (dispatch_error i)) <> Str error_image /\
    src (fst (dispatch_error i)) <> Str placeholder_image.
Proof.
  do 2 eexists. repeat split; try discriminate.
Qed.

(** A response that is the JSON text [null] parses, so the [try] block
    completes; the updater then reads a property of [null] and throws
    while rendering. *)
Lemma null_response_unmounts :
  extractNewsData Reference.JSON_parse Reference.URL_hostname
      (typed article) (Ok (mkResponse (Some "null"))) "আজ" =
  (Unmounted TypeError, [generateContent (prompt article)]).
Proof. vm_compute. reflexivity. Qed.

(** A malformed response goes to the [catch] block. *)
Lemma malformed_response_caught :
  extractNewsData Reference.JSON_parse Reference.URL_hostname
      (typed article) (Ok (mkResponse (Some "{title:"))) "আজ" =
  (Mounted
     (mkState article false (Some extraction_error)
        (newsData (typed article)) (selectedGradient (typed article))
        (fontSize (typed article))),
   [generateContent (prompt article); console_error None SyntaxError]).
Proof. vm_compute. reflexivity. Qed.

(** ** Instances of the properties of runs *)


(** A logo chosen while the call is in flight is still there after the
    call has failed, and so is the rest of the card. *)
Lemma settle_keeps_chosen_logo :
  let st :=
    mkState article true None
      (with_field field_logoUrl (Str text_file) (newsData (typed article)))
      (selectedGradient (typed article)) (fontSize (typed article)) in
  let st' :=
    mkState article false (Some extraction_error) (newsData st)
      (selectedGradient st) (fontSize st) in
  frame st st' /\
  (forall e, failure Reference.JSON_parse (Throw (Rejection "offline")) = Some e ->
             newsData st' = newsData st).
Proof.
  apply (settle_keeps_other_cells Reference.JSON_parse Reference.URL_hostname
           (mkWorld
              (Mounted
                 (mkState article true None
                    (with_field field_logoUrl (Str text_file)
                       (newsData (typed article)))
                    (selectedGradient (typed article))
                    (fontSize (typed article))))
              [article] [])
           _ _ 0%nat (Throw (Rejection "offline")) "আজ").
  - reflexivity.
  - reflexivity.
Defined.

(** The URL input is changed to a string that is no URL while the call
    for [article] is in flight: the call still succeeds. *)
Lemma settle_uses_article :
  run Reference.JSON_parse Reference.URL_hostname
    (mkWorld (Mounted (typed article)) [] [])
    [ClickGenerate; ChangeUrl schemeless;
     Settle 0 (Ok (mkResponse None)) "আজ"] =
  mkWorld
    (Mounted
       (mkState schemeless false None
          (mkNewsData (Str title_not_found) (Str placeholder_image)
             (logoUrl (newsData (typed article))) (Str "আজ")
             (Str "example.com"))
          (selectedGradient (typed article)) (fontSize (typed article))))
    [] ([] ++ [generateContent (prompt article)])%list.
Proof.
  apply (settle_uses_clicked_url Reference.JSON_parse Reference.URL_hostname
           (typed article) [] schemeless "আজ" "example.com"
           (mkResponse None)).
  - discriminate.
  - reflexivity.
  - vm_compute. reflexivity.
  - vm_compute. reflexivity.
Defined.

Lemma extract_scenario_again :
  extractNewsData Reference.JSON_parse Reference.URL_hostname
    (mkState article false None
       (mkNewsData (Str "টেস্ট শিরোনাম") (Str "https://x/y.jpg") (Str "")
          (Str "আজ") (Str "x.com"))
       (selectedGradient (typed article)) (fontSize (typed article)))
    (Ok (mkResponse (Some scenario_text))) "আজ" =
  (Mounted
     (mkState article false None
        (mkNewsData (Str "টেস্ট শিরোনাম") (Str "https://x/y.jpg") (Str "")
           (Str "আজ") (Str "x.com"))
        (selectedGradient (typed article)) (fontSize (typed article))),
   [generateContent (prompt article)]).
Proof.
  apply (extract_again_same Reference.JSON_parse Reference.URL_hostname
           (typed article)).
  vm_compute. reflexivity.
Defined.

Lemma null_response_article :
  extractNewsData_resume Reference.JSON_parse Reference.URL_hostname
    article "আজ" (Ok (mkResponse (Some "null"))) =
    ([setNewsData (merge Reference.URL_hostname Null article "আজ");
      setLoading false], []) /\
  extractNewsData Reference.JSON_parse Reference.URL_hostname
    (typed article) (Ok (mkResponse (Some "null"))) "আজ" =
    (Unmounted TypeError, [generateContent (prompt article)]).
Proof.
  apply (null_response_bypasses_catch Reference.JSON_parse
           Reference.URL_hostname (typed article)
           (mkResponse (Some "null")) "আজ").
  - discriminate.
  - vm_compute. reflexivity.
Defined.

Lemma array_response_article :
  extractNewsData Reference.JSON_parse Reference.URL_hostname
    (typed article) (Ok (mkResponse (Some "[]"))) "আজ" =
  (Mounted
     (mkState article false None
        (mkNewsData (Str title_not_found) (Str placeholder_image)
           (logoUrl (newsData (typed article))) (Str "আজ")
           (Str "example.com"))
        (selectedGradient (typed article)) (fontSize (typed article))),
   [generateContent (prompt article)]).
Proof.
  apply (non_object_response_all_fallbacks Reference.JSON_parse
           Reference.URL_hostname (typed article) (mkResponse (Some "[]"))
           "আজ" "example.com" (Arr [])).
  - discriminate.
  - vm_compute. reflexivity.
  - exact I.
  - vm_compute. reflexivity.
Defined.


(** A title, an image, a date and a source entered by hand before the
    call do not change its outcome. *)
Lemma extraction_overwrites_typed :
  extractNewsData Reference.JSON_parse Reference.URL_hostname
    (mkState (url (typed article)) false (Some extraction_error)
       (mkNewsData (Str "হাতে লেখা") (Str text_file)
          (logoUrl (newsData (typed article))) (Str "গতকাল")
          (Str "prothomalo.com"))
       (selectedGradient (typed article)) (fontSize (typed article)))
    (Ok (mkResponse (Some scenario_text))) "আজ" =
  extractNewsData Reference.JSON_parse Reference.URL_hostname
    (typed article) (Ok (mkResponse (Some scenario_text))) "আজ".
Proof.
  apply (extraction_overwrites_edits Reference.JSON_parse
           Reference.URL_hostname (typed article)
           (mkResponse (Some scenario_text)) "আজ" (Obj scenario_props)).
  - discriminate.
  - vm_compute. reflexivity.
Defined.

(** A response whose title is an object: the card is made, the render
    of it throws. *)
Lemma object_title_unmounts :
  extractNewsData_resume Reference.JSON_parse Reference.URL_hostname
    (url (typed article)) "আজ" (Ok (mkResponse (Some object_title_text))) =
    ([setNewsData
        (merge Reference.URL_hostname (Obj object_title_props)
           (url (typed article)) "আজ");
      setLoading false], []) /\
  extractNewsData Reference.JSON_parse Reference.URL_hostname
    (typed article) (Ok (mkResponse (Some object_title_text))) "আজ" =
    (Unmounted InvalidChild,
     [generateContent (prompt (url (typed article)))]).
Proof.
  apply (object_child_unmounts Reference.JSON_parse Reference.URL_hostname
           (typed article) (mkResponse (Some object_title_text)) "আজ"
           (Obj object_title_props)
           (mkNewsData (Obj [("text", Str "টেস্ট শিরোনাম")])
              (Str "https://x/y.jpg") (Str "") (Str "আজ") (Str "x.com"))).
  - discriminate.
  - vm_compute. reflexivity.
  - vm_compute. reflexivity.
  - reflexivity.
Defined.

Lemma fontSize_edit_minus_three :
  step Reference.JSON_parse Reference.URL_hostname
    (mkWorld (Mounted (typed article)) [] [])
    (ChangeFontSize (string_of_Z (-3))) =
  mkWorld
    (Mounted
       (mkState (url (typed article)) (loading (typed article))
          (error (typed article)) (newsData (typed article))
          (selectedGradient (typed article)) (of_Z (-3))))
    [] [].
Proof.
  apply (fontSize_edit_integer Reference.JSON_parse Reference.URL_hostname
           (typed article) [] [] (-3)).
  vm_compute. discriminate.
Defined.

(** ** The platform functions on examples *)

Example Number_rounds_to_even :
  Number "9007199254740993" = of_Z 9007199254740992.
Proof. vm_compute. reflexivity. Qed.

Example Number_overflows : Number "1e400" = Infinity false.
Proof. vm_compute. reflexivity. Qed.

Example Number_underflows : Number "2e-324" = of_Z 0.
Proof. vm_compute. reflexivity. Qed.

Example Number_largest :
  Number "1.7976931348623157e308" = of_Z (2 ^ 1024 - 2 ^ 971).
Proof. vm_compute. reflexivity. Qed.


Example Number_empty : Number "" = of_Z 0.
Proof. reflexivity. Qed.

Example Number_24 : Number "24" = of_Z 24.
Proof. reflexivity. Qed.

Example Number_exponent : Number " 1.5e1 " = of_Z 15.
Proof. vm_compute. reflexivity. Qed.

Example Number_half : Number ".5" = Finite (1 # 2).
Proof. vm_compute. reflexivity. Qed.

Example Number_hex : Number "0x1F" = of_Z 31.
Proof. reflexivity. Qed.

Example Number_unit : Number "12px" = NaN.
Proof. reflexivity. Qed.

Example Number_dot : Number "." = NaN.
Proof. reflexivity. Qed.

Example parse_empty_object : Reference.JSON_parse "{}" = Ok (Obj []).
Proof. reflexivity. Qed.

Example parse_empty_text : Reference.JSON_parse "" = Throw SyntaxError.
Proof. reflexivity. Qed.

Example parse_array :
  Reference.JSON_parse "[1, 2.5e1, true, [], {}]" =
  Ok (Arr [Num (of_Z 1); Num (of_Z 25); Bool true; Arr []; Obj []]).
Proof. vm_compute. reflexivity. Qed.

Example parse_trailing_comma : Reference.JSON_parse "[1,]" = Throw SyntaxError.
Proof. vm_compute. reflexivity. Qed.

Example hostname_userinfo_port :
  Reference.URL_hostname "HTTPS://User:pw@WWW.Example.COM:8080/a?b#c" =
  Ok "www.example.com".
Proof. vm_compute. reflexivity. Qed.

Example hostname_no_authority : Reference.URL_hostname "mailto:x@y.z" = Ok "".
Proof. vm_compute. reflexivity. Qed.

Example hostname_empty_host : Reference.URL_hostname "https://" = Throw TypeError.
Proof. vm_compute. reflexivity. Qed.

Example filename_of_now :
  downloadCard (Some tt) (Ok "data:image/png;base64,AA==") 1762142400000 =
  ([], [toPng;
        download "news-card-1762142400000.png" "data:image/png;base64,AA=="]).
Proof. vm_compute. reflexivity. Qed.

End App.
